(** * Verification of the DSPY Boss dashboard and its mock API routes

    Shallow embedding of the TypeScript sources under [frontend/]:
    - [components/boss-state-manager.tsx] and [POST /api/system/boss-state];
    - [GET]/[POST /api/tasks];
    - [components/task-management.tsx] ([handleTaskAction] and the buttons
      that offer it);
    - the agent-hierarchy route ([POST] with [create_agent] and
      [scale_agents]);
    - [POST /api/agents], the LLM-provider route, [formatRelativeTime], the
      State History panel and the status counters of the task list. *)

From Stdlib Require Import List String Ascii ZArith QArith Bool Lia.
From Stdlib Require Import DecimalString Sorting.Sorted.
Import ListNotations.
Open Scope string_scope.
Set Warnings "-register-all".

(** Decimal rendering of a JS number, as a template literal [`${n}`] does
    for an integral number. *)
Definition string_of_Z (z : Z) : string :=
  NilZero.string_of_int (Z.to_int z).

(** ** JSON values and objects *)
Module Json.

Inductive jsval :=
| JNull
| JBool (b : bool)
| JNum (z : Z)
| JStr (s : string)
| JArr (xs : list jsval)
| JObj (fields : list (string * jsval)).

(** A JS object as its own enumerable properties, in insertion order. *)
Definition jsobj := list (string * jsval).

Fixpoint lookup (k : string) (o : jsobj) : option jsval :=
  match o with
  | [] => None
  | (k', v) :: o' => if String.eqb k k' then Some v else lookup k o'
  end.

(** [CreateDataProperty]: overwrite an existing key in place, or append. *)
Fixpoint set (k : string) (v : jsval) (o : jsobj) : jsobj :=
  match o with
  | [] => [(k, v)]
  | (k', v') :: o' =>
      if String.eqb k k' then (k', v) :: o' else (k', v') :: set k v o'
  end.

(** Own enumerable properties that [...x] copies out of a value: the fields
    of an object, the indices of an array or a string, nothing for
    [null], booleans and numbers. *)
Definition spread_source (x : jsval) : jsobj :=
  match x with
  | JObj fs => fs
  | JArr xs =>
      map (fun '(i, v) => (string_of_Z (Z.of_nat i), v))
          (combine (seq 0 (List.length xs)) xs)
  | JStr s =>
      map (fun '(i, c) => (string_of_Z (Z.of_nat i), JStr (String c EmptyString)))
          (combine (seq 0 (String.length s)) (list_ascii_of_string s))
  | _ => []
  end.

(** [{...acc, ...x}] *)
Definition spread (acc : jsobj) (x : jsval) : jsobj :=
  fold_left (fun o '(k, v) => set k v o) (spread_source x) acc.

End Json.

(** ** Supervisor state: [boss-state-manager.tsx] and the boss-state route *)
Module Boss.

(** The members of the [BossState] enum that [boss-state-manager.tsx]
    imports from [@/lib/types]. *)
Inductive BossState :=
| IDLE | AWAKE | THINKING | RETHINK | EXECUTING
| RESEARCHING | REFLECTING | RESTART | STOP.

Definition all_states : list BossState :=
  [IDLE; AWAKE; THINKING; RETHINK; EXECUTING;
   RESEARCHING; REFLECTING; RESTART; STOP].

(** Modelled from the spec: the string values of the [BossState] enum, whose
    declaration is not under [src/] ([lib/types.ts] there declares an
    interface of that name); the dashboard shows them with [toUpperCase()],
    so they are taken as the lower-case state names. *)
Definition value (s : BossState) : string :=
  match s with
  | IDLE => "idle" | AWAKE => "awake" | THINKING => "thinking"
  | RETHINK => "rethink" | EXECUTING => "executing"
  | RESEARCHING => "researching" | REFLECTING => "reflecting"
  | RESTART => "restart" | STOP => "stop"
  end.

(** [Object.values(BossState)] *)
Definition values : list string := map value all_states.

(** Reading a [boss_state] string back as an enum member. *)
Definition of_string (s : string) : option BossState :=
  find (fun b => String.eqb (value b) s) all_states.

(** [STATE_ACTIONS] *)
Definition STATE_ACTIONS (s : BossState) : list BossState :=
  match s with
  | IDLE => [AWAKE; STOP; RESTART]
  | AWAKE => [THINKING; EXECUTING; RESEARCHING; IDLE; STOP]
  | THINKING => [EXECUTING; RESEARCHING; RETHINK; REFLECTING; IDLE]
  | RETHINK => [THINKING; EXECUTING; REFLECTING; IDLE]
  | EXECUTING => [THINKING; REFLECTING; IDLE; AWAKE]
  | RESEARCHING => [THINKING; EXECUTING; REFLECTING; IDLE]
  | REFLECTING => [THINKING; IDLE; AWAKE]
  | RESTART => [IDLE; AWAKE]
  | STOP => []
  end.

(** The component's React state: [overview.boss_state] (a string) and the
    states recorded in [stateHistory] (timestamps and durations left out). *)
Record Dashboard := {
  boss_state : string;
  state_history : list BossState
}.

(** [STATE_ACTIONS[currentState as BossState] || []] *)
Definition possibleActions (d : Dashboard) : list BossState :=
  match of_string (boss_state d) with
  | Some s => STATE_ACTIONS s
  | None => []
  end.

(** [handleStateChange(newState)]: installs [newState] and appends it to the
    history, without consulting the current state. *)
Definition handleStateChange (d : Dashboard) (newState : BossState) : Dashboard :=
  {| boss_state := value newState;
     state_history := (state_history d ++ [newState])%list |}.

(** A click on one of the "Available Actions" buttons. *)
Inductive ui_step : Dashboard -> Dashboard -> Prop :=
| click_action d a :
    In a (possibleActions d) -> ui_step d (handleStateChange d a).

(** Responses of the boss-state route: [{ success: true }] or an error. *)
Inductive Response :=
| Ok_success
| Error (http_status : Z) (message : string).

(** [POST /api/system/boss-state]: the parsed body, or [None] when
    [request.json()] throws; destructuring [{ state }] out of [null] throws
    as well. The route does not read the current state. *)
Definition post_boss_state (body : option Json.jsval) : Response :=
  match body with
  | None => Error 500 "Failed to set boss state"
  | Some b =>
      match b with
      | Json.JNull => Error 500 "Failed to set boss state"
      | _ =>
          let state :=
            match b with
            | Json.JObj fs => Json.lookup "state" fs
            | _ => None
            end in
          match state with
          | Some (Json.JStr s) =>
              if existsb (String.eqb s) values then Ok_success
              else Error 400 "Invalid boss state"
          | _ => Error 400 "Invalid boss state"
          end
      end
  end.

End Boss.

(** ** The task routes: [GET] and [POST /api/tasks] *)
Module TasksRoute.
Import Json.

(** The route module's task list ([mockTasks]), as JSON records. *)
Definition store := list jsobj.

(** [task.status === status] *)
Definition status_matches (status : string) (task : jsobj) : bool :=
  match lookup "status" task with
  | Some (JStr s) => String.eqb s status
  | _ => false
  end.

(** [Array.prototype.slice(0, limit)] *)
Definition slice0 {A} (xs : list A) (limit : Z) : list A :=
  if Z.leb 0 limit then firstn (Z.to_nat limit) xs
  else firstn (Z.to_nat (Z.of_nat (List.length xs) + limit)) xs.

(** [GET /api/tasks]. [status] is [searchParams.get('status')]; [limit] is
    [parseInt(searchParams.get('limit') || '100')], with [None] for [NaN]. *)
Definition get_tasks (mockTasks : store) (status : option string)
    (limit : option Z) : list jsobj :=
  let filteredTasks :=
    match status with
    | Some st => if String.eqb st "" then mockTasks
                 else filter (status_matches st) mockTasks
    | None => mockTasks
    end in
  match limit with
  | Some l => if Z.eqb l 0 then filteredTasks else slice0 filteredTasks l
  | None => filteredTasks
  end.

(** The record literal of [POST /api/tasks] before [...taskData]. *)
Definition default_task (now_ms : Z) (now_iso : string) : jsobj :=
  [("id", JStr ("task-" ++ string_of_Z now_ms));
   ("created_at", JStr now_iso);
   ("status", JStr "pending");
   ("retry_count", JNum 0);
   ("max_retries", JNum 3)].

Inductive Response :=
| Created (task : jsobj)
| Error (http_status : Z) (message : string).

Definition http_status (r : Response) : Z :=
  match r with
  | Created _ => 201
  | Error c _ => c
  end.

(** [POST /api/tasks] at time [now_ms] ([Date.now()]), whose ISO rendering
    is [now_iso]; [body] is [None] when [request.json()] throws. The task
    list is returned as the route leaves it. *)
Definition post_tasks (mockTasks : store) (now_ms : Z) (now_iso : string)
    (body : option jsval) : Response * store :=
  match body with
  | None => (Error 500 "Failed to create task", mockTasks)
  | Some taskData =>
      (Created (spread (default_task now_ms now_iso) taskData), mockTasks)
  end.

End TasksRoute.

(** ** The task list of [task-management.tsx] *)
Module TaskUI.

(** The members of the [TaskStatus] enum the component compares with. *)
Inductive TaskStatus := PENDING | RUNNING | COMPLETED | FAILED | CANCELLED.

Definition TaskStatus_eqb (a b : TaskStatus) : bool :=
  match a, b with
  | PENDING, PENDING | RUNNING, RUNNING | COMPLETED, COMPLETED
  | FAILED, FAILED | CANCELLED, CANCELLED => true
  | _, _ => false
  end.

(** A task row; the fields the component reads. Every other field is carried
    along unchanged by the spreads of [handleTaskAction]. *)
Record Task := {
  id : string;
  name : string;
  description : string;
  status : TaskStatus;
  retry_count : nat;
  max_retries : nat;
  error_message : option string
}.

Inductive Action := Retry | Cancel.

(** [{ ...task, status: TaskStatus.PENDING, retry_count: task?.retry_count + 1 }] *)
Definition retried (t : Task) : Task :=
  {| id := id t; name := name t; description := description t;
     status := PENDING; retry_count := S (retry_count t);
     max_retries := max_retries t; error_message := error_message t |}.

(** [{ ...task, status: TaskStatus.CANCELLED }] *)
Definition cancelled (t : Task) : Task :=
  {| id := id t; name := name t; description := description t;
     status := CANCELLED; retry_count := retry_count t;
     max_retries := max_retries t; error_message := error_message t |}.

Definition apply_action (a : Action) (t : Task) : Task :=
  match a with
  | Retry => retried t
  | Cancel => cancelled t
  end.

(** [handleTaskAction(taskId, action)]: the [setTasks] update. *)
Definition handleTaskAction (tasks : list Task) (taskId : string) (a : Action)
    : list Task :=
  map (fun t => if String.eqb (id t) taskId then apply_action a t else t) tasks.

(** The buttons rendered for a task row: "Retry" when
    [status === FAILED && retry_count < max_retries], "Cancel" when
    [status === PENDING || status === RUNNING]. *)
Definition offered (t : Task) (a : Action) : bool :=
  match a with
  | Retry => TaskStatus_eqb (status t) FAILED && Nat.ltb (retry_count t) (max_retries t)
  | Cancel => TaskStatus_eqb (status t) PENDING || TaskStatus_eqb (status t) RUNNING
  end.

(** A click on a button of a row of the list ([filteredTasks] is a sublist of
    [tasks]). *)
Inductive ui_step : list Task -> list Task -> Prop :=
| click tasks t a :
    In t tasks -> offered t a = true ->
    ui_step tasks (handleTaskAction tasks (id t) a).

Definition ids_unique (tasks : list Task) : Prop := NoDup (map id tasks).

End TaskUI.

(** ** JS numbers as [JSON.parse] produces them *)
Module JsNumber.
Local Open Scope Z_scope.

(** A number of a parsed JSON body: a finite binary64 value [m * 2^e] (every
    finite double is one with [|m| < 2^53]), or an infinity, which a literal
    beyond the range such as [1e400] gives. JSON has no NaN. *)
Inductive jsnum :=
| Finite (m e : Z)
| PosInf
| NegInf.

(** [m * 2^e] compared with the integer [n]; comparisons are exact. *)
Definition cmp_int (m e n : Z) : comparison :=
  if 0 <=? e then Z.compare (m * 2 ^ e) n else Z.compare m (n * 2 ^ (- e)).

(** [x > n] *)
Definition gt_int (x : jsnum) (n : Z) : bool :=
  match x with
  | Finite m e => match cmp_int m e n with Gt => true | _ => false end
  | PosInf => true
  | NegInf => false
  end.

(** [x < n] *)
Definition lt_int (x : jsnum) (n : Z) : bool :=
  match x with
  | Finite m e => match cmp_int m e n with Lt => true | _ => false end
  | PosInf => false
  | NegInf => true
  end.

(** The binary64 value nearest to the exact [m * 2^e], ties to even (the
    results rounded here stay inside the exponent range). *)
Definition round53 (m e : Z) : Z * Z :=
  let a := Z.abs m in
  if a <? 2 ^ 53 then (m, e)
  else
    let k := Z.log2 a - 52 in
    let q := a / 2 ^ k in
    let r := a mod 2 ^ k in
    let half := 2 ^ (k - 1) in
    let q' := if (half <? r) || ((r =? half) && Z.odd q) then q + 1 else q in
    (Z.sgn m * q', e + k).

(** [x - n] for an integer [n] *)
Definition sub_int (x : jsnum) (n : Z) : jsnum :=
  match x with
  | Finite m e =>
      let '(m1, e1) :=
        if 0 <=? e then (m * 2 ^ e - n, 0) else (m - n * 2 ^ (- e), e) in
      let '(m2, e2) := round53 m1 e1 in Finite m2 e2
  | PosInf => PosInf
  | NegInf => NegInf
  end.

(** [n - x] for an integer [n] *)
Definition int_sub (n : Z) (x : jsnum) : jsnum :=
  match x with
  | Finite m e =>
      let '(m1, e1) :=
        if 0 <=? e then (n - m * 2 ^ e, 0) else (n * 2 ^ (- e) - m, e) in
      let '(m2, e2) := round53 m1 e1 in Finite m2 e2
  | PosInf => NegInf
  | NegInf => PosInf
  end.

(** [Math.min(x, n)] for an integer [n] *)
Definition min_int (x : jsnum) (n : Z) : jsnum :=
  if lt_int x n then x else Finite n 0.

(** [Math.ceil(m * 2^e)] *)
Definition ceil (m e : Z) : Z :=
  if 0 <=? e then m * 2 ^ e else - ((- m) / 2 ^ (- e)).

(** The number of iterations of [for (let i = 0; i < x; i++)], or [None]
    when the loop never ends: [i] counts exactly up to 2^53, where [i++]
    rounds back to 2^53, so a bound above 2^53 (or Infinity) is never
    reached. *)
Definition loop_count (x : jsnum) : option nat :=
  match x with
  | Finite m e => if gt_int x (2 ^ 53) then None else Some (Z.to_nat (ceil m e))
  | PosInf => None
  | NegInf => Some O
  end.

End JsNumber.

(** ** The agent-hierarchy route ([mockAgentHierarchy] and its [POST]) *)
Module Hierarchy.
Import JsNumber.
Local Open Scope Z_scope.

(** An agent entry. [last_active] is the instant (ms since the epoch) whose
    ISO string the route stores; [performance_score] is a JS number, kept
    exact here. *)
Record AgentInfo := {
  agent_id : Z;
  display_name : string;
  agent_name : string;
  role : string;
  status : string;
  completed_tasks : Z;
  capabilities : list string;
  performance_score : Q;
  last_active : Z;
  current_task : option string
}.

Record Stats := {
  active_agents : Z;
  idle_agents : Z;
  busy_agents : Z;
  average_performance : Q;
  total_completed_tasks : Z
}.

Record Hierarchy := {
  boss_agent : AgentInfo;
  subordinate_agents : list AgentInfo;
  total_agents : Z;
  next_agent_id : Z;
  hierarchy_stats : Stats
}.

Definition boss (t0 : Z) : AgentInfo := {|
  agent_id := 0; display_name := "Boss (Agent 0)"; agent_name := "Boss Agent";
  role := "boss"; status := "active"; completed_tasks := 15;
  capabilities := ["strategic_decision_making"; "task_delegation";
                   "system_orchestration"; "agent_management";
                   "priority_assessment"; "resource_allocation"];
  performance_score := 1%Q; last_active := t0;
  current_task := Some "Monitoring system operations" |}.

(** [mockAgentHierarchy] as the module creates it at time [t0]. *)
Definition mockAgentHierarchy (t0 : Z) : Hierarchy := {|
  boss_agent := boss t0;
  subordinate_agents :=
    [ {| agent_id := 1; display_name := "Agent 1"; agent_name := "Trading Agent";
         role := "subordinate"; status := "idle"; completed_tasks := 8;
         capabilities := ["task_execution"; "problem_solving"; "data_processing";
                          "market_analysis"; "order_execution"; "risk_management"];
         performance_score := (85 # 100)%Q; last_active := t0 - 300000;
         current_task := None |};
      {| agent_id := 2; display_name := "Agent 2"; agent_name := "Analysis Agent";
         role := "subordinate"; status := "busy"; completed_tasks := 12;
         capabilities := ["task_execution"; "problem_solving"; "data_processing";
                          "data_analysis"; "pattern_recognition"; "reporting"];
         performance_score := (92 # 100)%Q; last_active := t0;
         current_task := Some "Analyzing market trends" |} ];
  total_agents := 3;
  next_agent_id := 3;
  hierarchy_stats := {| active_agents := 2; idle_agents := 1; busy_agents := 1;
                        average_performance := (92 # 100)%Q;
                        total_completed_tasks := 35 |} |}.

(** The literal of a new subordinate agent. *)
Definition new_agent (agent_id0 : Z) (name : string) (now : Z) : AgentInfo := {|
  agent_id := agent_id0; display_name := "Agent " ++ string_of_Z agent_id0;
  agent_name := name; role := "subordinate"; status := "idle";
  completed_tasks := 0;
  capabilities := ["task_execution"; "problem_solving"; "data_processing"];
  performance_score := (8 # 10)%Q; last_active := now; current_task := None |}.

Definition is_status (s : string) (a : AgentInfo) : bool := String.eqb (status a) s.

Definition count_status (s : string) (l : list AgentInfo) : Z :=
  Z.of_nat (List.length (filter (is_status s) l)).

(** [create_agent]: push, [total_agents++], [next_agent_id++],
    [idle_agents++]. *)
Definition create_agent (h : Hierarchy) (name : string) (now : Z) : Hierarchy :=
  let st := hierarchy_stats h in
  {| boss_agent := boss_agent h;
     subordinate_agents :=
       subordinate_agents h ++ [new_agent (next_agent_id h) name now];
     total_agents := total_agents h + 1;
     next_agent_id := next_agent_id h + 1;
     hierarchy_stats :=
       {| active_agents := active_agents st; idle_agents := idle_agents st + 1;
          busy_agents := busy_agents st;
          average_performance := average_performance st;
          total_completed_tasks := total_completed_tasks st |} |}.

(** One iteration of the scale-up loop. The route reads the clock for each
    new agent; all of them within the request, taken here as its time
    [now]. *)
Definition add_auto_agent (h : Hierarchy) (now : Z) : Hierarchy :=
  let n := next_agent_id h in
  {| boss_agent := boss_agent h;
     subordinate_agents :=
       subordinate_agents h ++ [new_agent n ("Auto Agent " ++ string_of_Z n) now];
     total_agents := total_agents h;
     next_agent_id := n + 1;
     hierarchy_stats := hierarchy_stats h |}.

Fixpoint add_auto_agents (k : nat) (h : Hierarchy) (now : Z) : Hierarchy :=
  match k with
  | O => h
  | S k' => add_auto_agents k' (add_auto_agent h now) now
  end.

(** [findIndex(a => a.agent_id === id)] followed by [splice(agentIndex, 1)]
    when the index is not -1. *)
Fixpoint remove_first_id (x : Z) (l : list AgentInfo) : list AgentInfo :=
  match l with
  | [] => []
  | a :: l' => if Z.eqb (agent_id a) x then l' else a :: remove_first_id x l'
  end.

(** The scale-down loop over [idleAgents], filtered before any removal:
    [for (let i = 0; i < Math.min(toRemove, idleAgents.length); i++)];
    [None] when the loop never ends. *)
Definition remove_idle_agents (toRemove : jsnum) (subs : list AgentInfo)
    : option (list AgentInfo) :=
  let idleAgents := filter (is_status "idle") subs in
  match loop_count (min_int toRemove (Z.of_nat (List.length idleAgents))) with
  | Some k =>
      Some (fold_left (fun l a => remove_first_id (agent_id a) l)
                      (firstn k idleAgents) subs)
  | None => None
  end.

(** The scale-up loop [for (let i = 0; i < toAdd; i++)]; [None] when it
    never ends. *)
Definition add_agents (toAdd : jsnum) (h : Hierarchy) (now : Z)
    : option Hierarchy :=
  match loop_count toAdd with
  | Some k => Some (add_auto_agents k h now)
  | None => None
  end.

(** The recomputed [hierarchy_stats] of [scale_agents]. *)
Definition compute_stats (subs : list AgentInfo) (total : Z) : Stats := {|
  active_agents := count_status "active" subs + 1;
  idle_agents := count_status "idle" subs;
  busy_agents := count_status "busy" subs;
  average_performance :=
    (fold_left (fun s a => s + performance_score a) subs 1 / inject_Z total)%Q;
  total_completed_tasks :=
    fold_left (fun s a => s + completed_tasks a) subs 15 |}.

Definition with_subordinates (h : Hierarchy) (subs : list AgentInfo) : Hierarchy :=
  {| boss_agent := boss_agent h; subordinate_agents := subs;
     total_agents := total_agents h; next_agent_id := next_agent_id h;
     hierarchy_stats := hierarchy_stats h |}.

(** [scale_agents] with a numeric [target_count]; [None] when a loop never
    ends (the request then never answers). *)
Definition scale_agents (h : Hierarchy) (target_count : jsnum) (now : Z)
    : option Hierarchy :=
  let currentSubordinates := Z.of_nat (List.length (subordinate_agents h)) in
  let h1 :=
    if gt_int target_count currentSubordinates then
      add_agents (sub_int target_count currentSubordinates) h now
    else if lt_int target_count currentSubordinates then
      match remove_idle_agents (int_sub currentSubordinates target_count)
                               (subordinate_agents h) with
      | Some subs => Some (with_subordinates h subs)
      | None => None
      end
    else Some h in
  match h1 with
  | Some h1 =>
      let total := Z.of_nat (List.length (subordinate_agents h1)) + 1 in
      Some {| boss_agent := boss_agent h1;
              subordinate_agents := subordinate_agents h1;
              total_agents := total;
              next_agent_id := next_agent_id h1;
              hierarchy_stats := compute_stats (subordinate_agents h1) total |}
  | None => None
  end.

(** The fields destructured from the body: [action], [agent_name] (a string
    or absent) and [target_count] ([None] when [typeof] is not ['number']). *)
Record Body := {
  action : option string;
  req_agent_name : option string;
  target_count : option jsnum
}.

(** [action === s] *)
Definition action_is (b : Body) (s : string) : bool :=
  match action b with
  | Some a => String.eqb a s
  | None => false
  end.

(** Responses: the [create_agent] message, [`Scaled to ${target_count}
    subordinate agents`] for the number received, or an error. *)
Inductive Response :=
| Success (message : string)
| Scaled (target : jsnum)
| Failure (http_status : Z) (message : string).

(** [POST] on the hierarchy route at time [now]; [body] is [None] when
    [request.json()] throws or the body is [null]. The result is [None]
    when the request never answers. *)
Definition post (h : Hierarchy) (now : Z) (body : option Body)
    : option (Response * Hierarchy) :=
  match body with
  | None => Some (Failure 500 "Internal server error", h)
  | Some b =>
      if action_is b "create_agent" then
        match req_agent_name b with
        | None | Some "" => Some (Failure 400 "Agent name is required", h)
        | Some nm =>
            Some (Success ("Created Agent " ++ string_of_Z (next_agent_id h)
                           ++ " (" ++ nm ++ ")"),
                  create_agent h nm now)
        end
      else if action_is b "scale_agents" then
        match target_count b with
        | None => Some (Failure 400 "Target count must be a number", h)
        | Some n =>
            match scale_agents h n now with
            | Some h' => Some (Scaled n, h')
            | None => None
            end
        end
      else Some (Failure 400 "Invalid action", h)
  end.

(** A sequence of requests, each with the time it arrives; [None] when one
    of them never answers (the module is then stuck in its loop). *)
Fixpoint run (h : Hierarchy) (reqs : list (Z * option Body)) : option Hierarchy :=
  match reqs with
  | [] => Some h
  | (now, b) :: reqs' =>
      match post h now b with
      | Some (_, h') => run h' reqs'
      | None => None
      end
  end.

End Hierarchy.

(** ** [POST /api/agents] ([app/api/agents/route.ts]) *)
Module AgentsRoute.
Import Json.

(** The record literal of [POST /api/agents] before [...agentData]. *)
Definition default_agent (now_ms : Z) (now_iso : string) : jsobj :=
  [("id", JStr ("agent-" ++ string_of_Z now_ms));
   ("created_at", JStr now_iso);
   ("is_available", JBool true);
   ("max_concurrent_tasks", JNum 3);
   ("capabilities", JArr [])].

Inductive Response :=
| Created (agent : jsobj)
| Error (http_status : Z) (message : string).

(** [POST /api/agents] at time [now_ms]; [body] is [None] when
    [request.json()] throws. [mockAgents] (imported from [@/lib/mock-data])
    is returned as the route leaves it. *)
Definition post_agents (mockAgents : list jsobj) (now_ms : Z) (now_iso : string)
    (body : option jsval) : Response * list jsobj :=
  match body with
  | None => (Error 500 "Failed to create agent", mockAgents)
  | Some agentData =>
      (Created (spread (default_agent now_ms now_iso) agentData), mockAgents)
  end.

End AgentsRoute.

(** ** The State History panel of [boss-state-manager.tsx] *)
Module BossHistory.
Import Boss.

(** [stateHistory.slice(-10).reverse()]: the rows the panel renders,
    newest first. [slice(-10)] starts at [max(length - 10, 0)]. *)
Definition recent_history (d : Dashboard) : list BossState :=
  let h := state_history d in
  rev (skipn (List.length h - 10) h).

End BossHistory.

(** ** The status counters of [task-management.tsx] *)
Module TaskCounts.
Import TaskUI.

Record Counts := {
  all : nat;
  pending : nat;
  running : nat;
  completed : nat;
  failed : nat
}.

(** [tasks.filter(t => t.status === s).length] *)
Definition count_of (s : TaskStatus) (tasks : list Task) : nat :=
  List.length (filter (fun t => TaskStatus_eqb (status t) s) tasks).

(** [taskCounts] *)
Definition taskCounts (tasks : list Task) : Counts := {|
  all := List.length tasks;
  pending := count_of PENDING tasks;
  running := count_of RUNNING tasks;
  completed := count_of COMPLETED tasks;
  failed := count_of FAILED tasks |}.

End TaskCounts.

(** ** [formatRelativeTime] ([lib/dashboard-utils]) *)
Module DashboardUtils.
Local Open Scope Z_scope.

(** [formatRelativeTime(timestamp)] at the instant [now_ms], for a
    [timestamp] that parses to the instant [time_ms] (both in ms since the
    epoch). [Math.floor(x / 1000)] is [Z.div], which rounds towards minus
    infinity as [Math.floor] does (the float quotient is exact enough for
    any difference below 4 * 10^15 ms). *)
Definition formatRelativeTime (now_ms time_ms : Z) : string :=
  let diffInSeconds := (now_ms - time_ms) / 1000 in
  if diffInSeconds <? 60 then string_of_Z diffInSeconds ++ "s ago"
  else if diffInSeconds <? 3600 then string_of_Z (diffInSeconds / 60) ++ "m ago"
  else if diffInSeconds <? 86400 then string_of_Z (diffInSeconds / 3600) ++ "h ago"
  else string_of_Z (diffInSeconds / 86400) ++ "d ago".

End DashboardUtils.

(** ** The LLM-provider route ([GET]/[POST], [mockLLMProviders]) *)
Module LLMProviders.

Record ProviderData := {
  is_active : bool;
  has_api_key : bool;
  is_initialized : bool;
  model : string;
  base_url : string
}.

(** [mockLLMProviders]: [active_provider] ([null] is [None]) and the
    [providers] object, as its own properties in order. *)
Record State := {
  active_provider : option string;
  providers : list (string * ProviderData)
}.

Definition fresh (m u : string) : ProviderData := {|
  is_active := false; has_api_key := false; is_initialized := false;
  model := m; base_url := u |}.

Definition initial : State := {|
  active_provider := None;
  providers :=
    [("openai", fresh "gpt-4-turbo-preview" "https://api.openai.com/v1");
     ("grok", fresh "grok-beta" "https://api.x.ai/v1");
     ("ollama", fresh "llama3.1" "http://localhost:11434");
     ("google", fresh "gemini-1.5-pro"
                      "https://generativelanguage.googleapis.com/v1beta");
     ("openrouter", fresh "anthropic/claude-3-haiku" "https://openrouter.ai/api/v1")]
|}.

(** The properties every plain object inherits from [Object.prototype]:
    [provider in providers] is true for them as well. *)
Definition proto_keys : list string :=
  ["constructor"; "hasOwnProperty"; "isPrototypeOf"; "propertyIsEnumerable";
   "toLocaleString"; "toString"; "valueOf"; "__proto__";
   "__defineGetter__"; "__defineSetter__"; "__lookupGetter__"; "__lookupSetter__"].

(** [providers[p]] for an own property [p]. *)
Fixpoint find_provider (p : string) (l : list (string * ProviderData))
    : option ProviderData :=
  match l with
  | [] => None
  | (q, d) :: l' => if String.eqb p q then Some d else find_provider p l'
  end.

(** The writes [has_api_key = is_active = is_initialized = true]. *)
Definition keyed (d : ProviderData) : ProviderData := {|
  is_active := true; has_api_key := true; is_initialized := true;
  model := model d; base_url := base_url d |}.

Fixpoint set_keyed (p : string) (l : list (string * ProviderData))
    : list (string * ProviderData) :=
  match l with
  | [] => []
  | (q, d) :: l' => if String.eqb p q then (q, keyed d) :: l' else (q, d) :: set_keyed p l'
  end.

(** The fields destructured from the body, when they are strings or absent. *)
Record Body := {
  action : option string;
  provider : option string;
  api_key : option string
}.

(** A string field is truthy when present and non-empty. *)
Definition truthy (s : option string) : option string :=
  match s with
  | Some "" | None => None
  | Some x => Some x
  end.

Definition action_is (b : Body) (s : string) : bool :=
  match action b with
  | Some a => String.eqb a s
  | None => false
  end.

Inductive Response :=
| Ok (message : string)
| Tested (status : string) (message : string)
| Failure (http_status : Z) (message : string).

(** [POST] on the LLM-provider route; [body] is [None] when [request.json()]
    throws or the body is [null]. The result is [None] only for
    [set_api_key] on a name that [in] finds on [Object.prototype] (such as
    ["toString"] or ["__proto__"]): the route then answers "API key set"
    and writes the three flags onto a shared built-in object (the function
    [Object.prototype.toString], or [Object.prototype] itself), after which
    [switch_provider] and [test_provider] on such names read those flags and
    succeed. The model does not represent those built-in objects: it covers
    the route up to such a request, and [run] stops there. *)
Definition post (st : State) (body : option Body) : option (Response * State) :=
  match body with
  | None => Some (Failure 500 "Internal server error", st)
  | Some b =>
      if action_is b "set_api_key" then
        match truthy (provider b), truthy (api_key b) with
        | Some p, Some _ =>
            match find_provider p (providers st) with
            | Some _ =>
                Some (Ok ("API key set for " ++ p),
                      {| active_provider :=
                           match truthy (active_provider st) with
                           | None => Some p
                           | Some a => Some a
                           end;
                         providers := set_keyed p (providers st) |})
            | None =>
                if existsb (String.eqb p) proto_keys then None
                else Some (Ok ("API key set for " ++ p), st)
            end
        | _, _ => Some (Failure 400 "Provider and API key are required", st)
        end
      else if action_is b "switch_provider" then
        match truthy (provider b) with
        | None => Some (Failure 400 "Provider is required", st)
        | Some p =>
            match find_provider p (providers st) with
            | Some d =>
                if is_initialized d then
                  Some (Ok ("Switched to " ++ p),
                        {| active_provider := Some p; providers := providers st |})
                else Some (Failure 400 ("Provider " ++ p ++ " is not initialized"), st)
            | None => Some (Failure 400 ("Provider " ++ p ++ " is not initialized"), st)
            end
        end
      else if action_is b "test_provider" then
        match truthy (provider b) with
        | None => Some (Failure 400 "Provider is required", st)
        | Some p =>
            match find_provider p (providers st) with
            | Some d =>
                if has_api_key d then
                  Some (Tested "success" ("Provider " ++ p ++ " is working correctly"), st)
                else Some (Tested "error" ("Provider " ++ p ++ " needs API key"), st)
            | None => Some (Tested "error" ("Provider " ++ p ++ " needs API key"), st)
            end
        end
      else Some (Failure 400 "Invalid action", st)
  end.

(** A sequence of requests; [None] once one leaves the model. *)
Fixpoint run (st : State) (reqs : list (option Body)) : option State :=
  match reqs with
  | [] => Some st
  | b :: reqs' =>
      match post st b with
      | Some (_, st') => run st' reqs'
      | None => None
      end
  end.

End LLMProviders.

(** * Properties *)

(** ** Supervisor state *)
Section BossFacts.
Import Boss.

Lemma of_string_value (s : BossState) : of_string (value s) = Some s.
Proof. destruct s; reflexivity. Qed.

Lemma value_in_values (s : BossState) : existsb (String.eqb (value s)) values = true.
Proof. destruct s; reflexivity. Qed.

(** C1 (claim as stated, refuted): the boss-state route answers
    [{ success: true }] to the request ["executing"], with no warning and
    without reading the current state, so also when the supervisor is in
    STOP, whose table lists no successor. *)
Lemma C1_counterexample :
  post_boss_state (Some (Json.JObj [("state", Json.JStr "executing")])) = Ok_success /\
  ~ In EXECUTING (STATE_ACTIONS STOP).
Proof. split; [reflexivity | simpl; tauto]. Qed.

(** C1 (amended): the boss-state route does not consult the transition
    table: it accepts every [BossState] value with [{ success: true }],
    rejects with 400 ["Invalid boss state"] a body whose [state] is not one
    of those values (absent, not a string, or another string), and answers
    500 to a body that is not JSON or is [null]; [handleStateChange]
    installs whatever state it is given. The only gate is the dashboard,
    whose buttons offer the successors listed in [STATE_ACTIONS], so a
    change made by clicking an offered action follows the table and is
    recorded in the history. *)
Theorem C1_state_change_gated_by_dashboard :
  (forall (fs : Json.jsobj) (s : BossState),
      Json.lookup "state" fs = Some (Json.JStr (value s)) ->
      post_boss_state (Some (Json.JObj fs)) = Ok_success) /\
  (forall b : Json.jsval, b <> Json.JNull ->
      (forall s, match b with
                 | Json.JObj fs => Json.lookup "state" fs
                 | _ => None
                 end = Some (Json.JStr s) -> ~ In s values) ->
      post_boss_state (Some b) = Error 400 "Invalid boss state") /\
  post_boss_state None = Error 500 "Failed to set boss state" /\
  post_boss_state (Some Json.JNull) = Error 500 "Failed to set boss state" /\
  (forall (d : Dashboard) (newState : BossState),
      of_string (boss_state (handleStateChange d newState)) = Some newState) /\
  (forall d d' : Dashboard, ui_step d d' ->
      exists cur next,
        of_string (boss_state d) = Some cur /\
        of_string (boss_state d') = Some next /\
        In next (STATE_ACTIONS cur) /\
        state_history d' = (state_history d ++ [next])%list).
Proof.
  split; [| split; [| split; [reflexivity | split; [reflexivity | split]]]].
  - intros fs s Hs. unfold post_boss_state. rewrite Hs.
    rewrite value_in_values. reflexivity.
  - intros b Hb Hnot. unfold post_boss_state.
    destruct b as [| bb | z | str | xs | fs]; try reflexivity; [contradiction |].
    destruct (Json.lookup "state" fs) as [v |] eqn:Hv; [| reflexivity].
    destruct v as [| bb | z | str | xs | fs']; try reflexivity.
    destruct (existsb (String.eqb str) values) eqn:Hex; [| reflexivity].
    exfalso. apply existsb_exists in Hex. destruct Hex as [x [Hx Heq]].
    apply String.eqb_eq in Heq. subst x. exact (Hnot str eq_refl Hx).
  - intros d newState. apply of_string_value.
  - intros d d' Hstep. inversion Hstep as [d0 a Hin]; subst.
    unfold possibleActions in Hin.
    destruct (of_string (boss_state d)) as [cur |] eqn:Hcur; [| contradiction].
    exists cur, a. repeat split; auto. apply of_string_value.
Qed.

Lemma C1_witness :
  post_boss_state (Some (Json.JObj [("state", Json.JStr "stop")])) = Ok_success /\
  post_boss_state (Some (Json.JObj [("state", Json.JStr "shutdown")])) =
    Error 400 "Invalid boss state" /\
  (exists cur next,
     of_string (boss_state (handleStateChange
        {| boss_state := "idle"; state_history := [] |} STOP)) = Some next /\
     of_string "idle" = Some cur /\ In next (STATE_ACTIONS cur)).
Proof.
  destruct C1_state_change_gated_by_dashboard as [Hpost [Hbad [_ [_ [_ Hstep]]]]].
  split; [| split].
  - apply (Hpost _ STOP). reflexivity.
  - apply Hbad; [discriminate |]. intros s Hs. injection Hs as <-.
    simpl. intuition discriminate.
  - destruct (Hstep {| boss_state := "idle"; state_history := [] |}
                    (handleStateChange {| boss_state := "idle"; state_history := [] |} STOP))
      as [cur [next [H1 [H2 [H3 _]]]]].
    + apply click_action. simpl. tauto.
    + exists cur, next. split; [exact H2 | split; [exact H1 | exact H3]].
Defined.

(** C2 (claim as stated, refuted): EXECUTING is not terminal, yet STOP is
    not among its successors. *)
Lemma C2_counterexample :
  EXECUTING <> STOP /\ ~ In STOP (STATE_ACTIONS EXECUTING).
Proof. split; [discriminate | simpl; intuition discriminate]. Qed.

(** C2 (amended): STOP is a successor of IDLE and AWAKE only; STOP has no
    successors, so no offered action leaves it. *)
Theorem C2_stop_successors :
  (forall s : BossState, In STOP (STATE_ACTIONS s) <-> s = IDLE \/ s = AWAKE) /\
  STATE_ACTIONS STOP = [] /\
  (forall d d' : Dashboard, ui_step d d' -> of_string (boss_state d) <> Some STOP).
Proof.
  split; [| split; [reflexivity |]].
  - intros s; destruct s; simpl; intuition discriminate.
  - intros d d' Hstep Hstop. inversion Hstep as [d0 a Hin]; subst.
    unfold possibleActions in Hin. rewrite Hstop in Hin. contradiction.
Qed.

Lemma C2_witness :
  of_string (boss_state {| boss_state := "awake"; state_history := [] |}) <> Some STOP.
Proof.
  destruct C2_stop_successors as [_ [_ Hstep]].
  apply (Hstep _ (handleStateChange {| boss_state := "awake"; state_history := [] |} STOP)).
  apply click_action. simpl. tauto.
Defined.

End BossFacts.

(** ** JSON objects: lookups through [set] and spreads *)
Section JsonFacts.
Import Json.

Lemma lookup_set (k k' : string) (v : jsval) (o : jsobj) :
  lookup k (set k' v o) = if String.eqb k k' then Some v else lookup k o.
Proof.
  induction o as [| [k1 v1] o IH]; simpl.
  - destruct (String.eqb k k'); reflexivity.
  - destruct (String.eqb k' k1) eqn:E1.
    + apply String.eqb_eq in E1; subst k1. simpl.
      destruct (String.eqb k k'); reflexivity.
    + simpl. destruct (String.eqb k k1) eqn:E2.
      * apply String.eqb_eq in E2; subst k1.
        destruct (String.eqb k k') eqn:E3; [| reflexivity].
        apply String.eqb_eq in E3; subst k'.
        rewrite String.eqb_refl in E1; discriminate.
      * exact IH.
Qed.

Lemma lookup_not_key (k : string) (o : jsobj) :
  ~ In k (map fst o) -> lookup k o = None.
Proof.
  induction o as [| [k1 v1] o IH]; simpl; intros Hn; [reflexivity |].
  destruct (String.eqb k k1) eqn:E.
  - apply String.eqb_eq in E; subst. exfalso; tauto.
  - apply IH. tauto.
Qed.

(** With distinct source keys, a spread reads a key from the source first
    and from the accumulator otherwise. *)
Lemma lookup_spread (acc : jsobj) (x : jsval) (k : string) :
  NoDup (map fst (spread_source x)) ->
  lookup k (spread acc x) =
  match lookup k (spread_source x) with
  | Some v => Some v
  | None => lookup k acc
  end.
Proof.
  unfold spread. generalize (spread_source x) as src. intros src.
  revert acc.
  induction src as [| [k1 v1] src IH]; intros acc Hnd; simpl; [reflexivity |].
  inversion Hnd as [| ? ? Hnotin Hnd']; subst.
  rewrite (IH _ Hnd'), lookup_set.
  destruct (String.eqb k k1) eqn:E.
  - apply String.eqb_eq in E; subst k1.
    rewrite (lookup_not_key _ _ Hnotin). reflexivity.
  - destruct (lookup k src); reflexivity.
Qed.

End JsonFacts.

(** ** The task routes *)
Section TasksRouteFacts.
Import Json TasksRoute.

(** C3 (claim as stated, refuted): a body with an empty name, an unknown
    priority and [max_retries = -1] is not rejected: the route answers with
    a created task that carries those fields. *)
Lemma C3_counterexample :
  exists task,
    post_tasks [] 0 "1970-01-01T00:00:00.000Z"
      (Some (JObj [("name", JStr ""); ("priority", JStr "BOGUS");
                   ("max_retries", JNum (-1))])) = (Created task, []) /\
    lookup "name" task = Some (JStr "") /\
    lookup "priority" task = Some (JStr "BOGUS") /\
    lookup "max_retries" task = Some (JNum (-1)) /\
    lookup "status" task = Some (JStr "pending").
Proof.
  eexists. split; [reflexivity |]. repeat split; reflexivity.
Qed.

(** C3 (amended): [POST /api/tasks] validates nothing. Every body that parses
    as JSON gets status 201 and the default record overridden by the body,
    and the task list that [GET /api/tasks] serves is left as it was. *)
Theorem C3_post_tasks_accepts_every_body :
  forall (mockTasks : store) (now_ms : Z) (now_iso : string) (taskData : jsval),
    let r := post_tasks mockTasks now_ms now_iso (Some taskData) in
    http_status (fst r) = 201%Z /\
    fst r = Created (spread (default_task now_ms now_iso) taskData) /\
    snd r = mockTasks /\
    (forall status limit, get_tasks (snd r) status limit = get_tasks mockTasks status limit).
Proof. intros. repeat split; reflexivity. Qed.

(** C10: in the created task the body's fields win over the defaults, and the
    defaults are read only for the keys the body lacks; some body yields a
    task whose status, id, retry_count and max_retries all differ from the
    defaults. *)
Theorem C10_body_fields_override_defaults :
  (forall mockTasks now_ms now_iso taskData task st,
      post_tasks mockTasks now_ms now_iso (Some taskData) = (Created task, st) ->
      NoDup (map fst (spread_source taskData)) ->
      forall k,
        lookup k task =
        match lookup k (spread_source taskData) with
        | Some v => Some v
        | None => lookup k (default_task now_ms now_iso)
        end) /\
  (forall mockTasks now_ms now_iso,
      exists taskData task,
        post_tasks mockTasks now_ms now_iso (Some taskData) = (Created task, mockTasks) /\
        lookup "status" task <> Some (JStr "pending") /\
        lookup "id" task <> lookup "id" (default_task now_ms now_iso) /\
        lookup "retry_count" task <> Some (JNum 0) /\
        lookup "max_retries" task <> Some (JNum 3)).
Proof.
  split.
  - intros mockTasks now_ms now_iso taskData task st Hpost Hnd k.
    simpl in Hpost. inversion Hpost; subst.
    apply lookup_spread. exact Hnd.
  - intros mockTasks now_ms now_iso.
    exists (JObj [("id", JStr "t"); ("status", JStr "completed");
                  ("retry_count", JNum 7); ("max_retries", JNum (-1))]).
    eexists. split; [reflexivity |].
    repeat split; simpl; discriminate.
Qed.

Lemma C10_witness :
  lookup "status"
    (spread (default_task 5 "t") (JObj [("name", JStr "n")])) = Some (JStr "pending").
Proof.
  destruct C10_body_fields_override_defaults as [Hover _].
  rewrite (Hover [] 5%Z "t" (JObj [("name", JStr "n")])
             (spread (default_task 5 "t") (JObj [("name", JStr "n")])) []).
  - reflexivity.
  - reflexivity.
  - simpl. constructor; [simpl; tauto | constructor].
Defined.

End TasksRouteFacts.

(** ** The task list of [task-management.tsx] *)
Section TaskUIFacts.
Import TaskUI.
Local Open Scope nat_scope.
Local Open Scope list_scope.

Lemma TaskStatus_eqb_true (a b : TaskStatus) : TaskStatus_eqb a b = true <-> a = b.
Proof. destruct a, b; simpl; split; congruence. Qed.

Lemma id_apply_action (a : Action) (t : Task) : id (apply_action a t) = id t.
Proof. destruct a; reflexivity. Qed.

Lemma NoDup_map_inj {A B} (f : A -> B) (l : list A) (x y : A) :
  NoDup (map f l) -> In x l -> In y l -> f x = f y -> x = y.
Proof.
  induction l as [| z l IH]; simpl; intros Hnd Hx Hy Hf; [contradiction |].
  inversion Hnd as [| ? ? Hnot Hnd']; subst.
  destruct Hx as [<- | Hx], Hy as [<- | Hy]; auto.
  - exfalso. apply Hnot. rewrite Hf. apply in_map. exact Hy.
  - exfalso. apply Hnot. rewrite <- Hf. apply in_map. exact Hx.
Qed.

(** Every row after a click is a row from before, either unchanged or the
    clicked row with its offered action applied. *)
Lemma ui_step_rows (ts ts' : list Task) (t' : Task) :
  ids_unique ts -> ui_step ts ts' -> In t' ts' ->
  exists v, In v ts /\
    (t' = v \/ exists a, offered v a = true /\ t' = apply_action a v).
Proof.
  intros Hu Hstep Hin. inversion Hstep as [ts0 u a Hu_in Hoff]; subst.
  unfold handleTaskAction in Hin. apply in_map_iff in Hin.
  destruct Hin as [v [Hv Hvin]]. exists v. split; [exact Hvin |].
  destruct (String.eqb (id v) (id u)) eqn:E.
  - apply String.eqb_eq in E.
    assert (v = u) as -> by (apply (NoDup_map_inj id ts); assumption).
    right. exists a. split; [exact Hoff | symmetry; exact Hv].
  - left. symmetry. exact Hv.
Qed.

Lemma handleTaskAction_absent (l : list Task) (x : string) (a : Action) :
  ~ In x (map id l) -> handleTaskAction l x a = l.
Proof.
  induction l as [| t l IH]; simpl; intros Hn; [reflexivity |].
  destruct (String.eqb (id t) x) eqn:E.
  - apply String.eqb_eq in E. exfalso; tauto.
  - f_equal. apply IH. tauto.
Qed.

Lemma handleTaskAction_app (l1 l2 : list Task) (x : string) (a : Action) :
  handleTaskAction (l1 ++ l2) x a = handleTaskAction l1 x a ++ handleTaskAction l2 x a.
Proof. apply map_app. Qed.

Lemma handleTaskAction_cons (t : Task) (l : list Task) (x : string) (a : Action) :
  handleTaskAction (t :: l) x a =
  (if String.eqb (id t) x then apply_action a t else t) :: handleTaskAction l x a.
Proof. reflexivity. Qed.

(** C4: a FAILED row below its retry budget offers "Retry", which sets it to
    PENDING with one more retry and leaves every other row as it was; a FAILED
    row that has used its budget offers nothing and survives every click
    unchanged; clicks keep [retry_count <= max_retries], so such a row has
    [retry_count = max_retries]. *)
Theorem C4_retry_and_terminal_failure :
  (forall pre post t,
      ids_unique (pre ++ t :: post) ->
      status t = FAILED -> retry_count t < max_retries t ->
      offered t Retry = true /\
      handleTaskAction (pre ++ t :: post) (id t) Retry = pre ++ retried t :: post /\
      status (retried t) = PENDING /\ retry_count (retried t) = S (retry_count t)) /\
  (forall ts ts' t,
      ids_unique ts -> ui_step ts ts' -> In t ts ->
      status t = FAILED -> max_retries t <= retry_count t -> In t ts') /\
  (forall ts ts',
      ids_unique ts -> ui_step ts ts' ->
      Forall (fun t => retry_count t <= max_retries t) ts ->
      Forall (fun t => retry_count t <= max_retries t) ts') /\
  (forall t,
      status t = FAILED -> retry_count t <= max_retries t ->
      offered t Retry = false -> retry_count t = max_retries t).
Proof.
  split; [| split; [| split]].
  - intros pre post t Hu Hf Hlt.
    split; [unfold offered; rewrite Hf; simpl; apply Nat.ltb_lt; exact Hlt |].
    split; [| split; reflexivity].
    unfold ids_unique in Hu. rewrite map_app in Hu. simpl in Hu.
    apply NoDup_remove_2 in Hu. rewrite in_app_iff in Hu.
    rewrite handleTaskAction_app, handleTaskAction_cons, String.eqb_refl.
    rewrite (handleTaskAction_absent pre), (handleTaskAction_absent post) by tauto.
    reflexivity.
  - intros ts ts' t Hu Hstep Hin Hf Hge.
    inversion Hstep as [ts0 u a Hu_in Hoff]; subst.
    destruct (String.eqb (id t) (id u)) eqn:E.
    + apply String.eqb_eq in E.
      assert (t = u) as <- by (apply (NoDup_map_inj id ts); assumption).
      exfalso. destruct a; simpl in Hoff; rewrite Hf in Hoff; simpl in Hoff.
      * apply Nat.ltb_lt in Hoff. lia.
      * discriminate.
    + unfold handleTaskAction. apply in_map_iff. exists t. rewrite E. auto.
  - intros ts ts' Hu Hstep Hall. rewrite Forall_forall in *. intros t' Hin.
    destruct (ui_step_rows ts ts' t' Hu Hstep Hin) as [v [Hv [-> | [a [Hoff ->]]]]].
    + apply Hall. exact Hv.
    + specialize (Hall v Hv). destruct a; simpl in *.
      * apply andb_true_iff in Hoff. destruct Hoff as [_ Hlt].
        apply Nat.ltb_lt in Hlt. lia.
      * exact Hall.
  - intros t Hf Hle Hoff. unfold offered in Hoff. rewrite Hf in Hoff. simpl in Hoff.
    apply Nat.ltb_ge in Hoff. lia.
Qed.

Definition sample_task (tid : string) (st : TaskStatus) (rc mr : nat) : Task :=
  {| id := tid; name := tid; description := ""; status := st;
     retry_count := rc; max_retries := mr; error_message := None |}.

Lemma C4_witness :
  handleTaskAction [sample_task "a" PENDING 0 3; sample_task "b" FAILED 1 3]
    "b" Retry
  = [sample_task "a" PENDING 0 3; retried (sample_task "b" FAILED 1 3)] /\
  retry_count (sample_task "c" FAILED 3 3) = max_retries (sample_task "c" FAILED 3 3).
Proof.
  destruct C4_retry_and_terminal_failure as [Hretry [_ [_ Hterm]]].
  split.
  - apply (Hretry [sample_task "a" PENDING 0 3] [] (sample_task "b" FAILED 1 3)).
    + unfold ids_unique. simpl. constructor; [simpl; intuition discriminate |].
      constructor; [simpl; tauto | constructor].
    + reflexivity.
    + simpl. lia.
  - apply Hterm; [reflexivity | simpl; lia | reflexivity].
Defined.

(** C5: "Cancel" is not offered on COMPLETED, FAILED or CANCELLED rows; after
    any click a row ends CANCELLED only if it was PENDING, RUNNING or already
    CANCELLED; a COMPLETED or FAILED row never becomes CANCELLED. *)
Theorem C5_cancel_only_from_pending_or_running :
  (forall t,
      status t = COMPLETED \/ status t = FAILED \/ status t = CANCELLED ->
      offered t Cancel = false) /\
  (forall ts ts' t',
      ids_unique ts -> ui_step ts ts' -> In t' ts' -> status t' = CANCELLED ->
      exists t, In t ts /\ id t = id t' /\
        (status t = PENDING \/ status t = RUNNING \/ status t = CANCELLED)) /\
  (forall ts ts' t t',
      ids_unique ts -> ui_step ts ts' -> In t ts ->
      (status t = COMPLETED \/ status t = FAILED) ->
      In t' ts' -> id t' = id t -> status t' <> CANCELLED).
Proof.
  split; [| split].
  - intros t Hs. unfold offered.
    destruct Hs as [Hs | [Hs | Hs]]; rewrite Hs; reflexivity.
  - intros ts ts' t' Hu Hstep Hin Hc.
    destruct (ui_step_rows ts ts' t' Hu Hstep Hin) as [v [Hv Hor]].
    exists v. split; [exact Hv |].
    destruct Hor as [-> | [a [Hoff ->]]].
    + split; [reflexivity | right; right; exact Hc].
    + split; [symmetry; apply id_apply_action |].
      destruct a; simpl in Hc |- *; [discriminate |].
      unfold offered in Hoff. apply orb_true_iff in Hoff.
      destruct Hoff as [H | H]; apply TaskStatus_eqb_true in H; tauto.
  - intros ts ts' t t' Hu Hstep Hin Hs Hin' Hid Hc.
    destruct (ui_step_rows ts ts' t' Hu Hstep Hin') as [v [Hv Hor]].
    assert (Hidv : id v = id t).
    { destruct Hor as [-> | [a [_ ->]]]; [exact Hid | rewrite <- Hid; symmetry; apply id_apply_action]. }
    assert (v = t) as -> by (apply (NoDup_map_inj id ts); assumption).
    destruct Hor as [-> | [a [Hoff ->]]].
    + destruct Hs as [Hs | Hs]; congruence.
    + destruct a; simpl in Hc; [discriminate |].
      unfold offered in Hoff. destruct Hs as [Hs | Hs]; rewrite Hs in Hoff; discriminate.
Qed.

Lemma C5_witness :
  offered (sample_task "d" COMPLETED 0 3) Cancel = false /\
  status (sample_task "d" COMPLETED 0 3) <> CANCELLED.
Proof.
  destruct C5_cancel_only_from_pending_or_running as [Hoff [_ Hkeep]].
  split.
  - apply Hoff. left. reflexivity.
  - apply (Hkeep [sample_task "d" COMPLETED 0 3; sample_task "e" PENDING 0 3]
                 (handleTaskAction [sample_task "d" COMPLETED 0 3; sample_task "e" PENDING 0 3]
                                   "e" Cancel)
                 (sample_task "d" COMPLETED 0 3) (sample_task "d" COMPLETED 0 3)).
    + unfold ids_unique. simpl. constructor; [simpl; intuition discriminate |].
      constructor; [simpl; tauto | constructor].
    + apply (click _ (sample_task "e" PENDING 0 3) Cancel); [simpl; tauto | reflexivity].
    + simpl. tauto.
    + left. reflexivity.
    + simpl. tauto.
    + reflexivity.
Defined.

End TaskUIFacts.

(** ** The agent hierarchy *)
Section HierarchyFacts.
Import JsNumber Hierarchy.
Local Open Scope Z_scope.
Local Open Scope list_scope.

Definition ids_unique (l : list AgentInfo) : Prop := NoDup (map agent_id l).

(** [a] is not among the removed agents [r] (matched by [agent_id]). *)
Definition not_removed (r : list AgentInfo) (a : AgentInfo) : bool :=
  negb (existsb (fun b => Z.eqb (agent_id b) (agent_id a)) r).

Lemma NoDup_map_filter {A B} (l : list A) (keep : A -> bool) (f : A -> B)
    (Hnd : NoDup (map f l)) : NoDup (map f (filter keep l)).
Proof.
  revert Hnd. induction l as [| x xs IHxs]; cbn; intros Hnd; [constructor |].
  apply NoDup_cons_iff in Hnd. destruct Hnd as [Hnot Hnd].
  destruct (keep x); cbn; [| exact (IHxs Hnd)].
  apply NoDup_cons; [| exact (IHxs Hnd)].
  rewrite in_map_iff. intros [y [Hy Hyin]]. rewrite filter_In in Hyin.
  apply Hnot. rewrite <- Hy. apply in_map. apply Hyin.
Qed.

Lemma filter_all_other (x : Z) (l : list AgentInfo) :
  ~ In x (map agent_id l) ->
  filter (fun a => negb (Z.eqb (agent_id a) x)) l = l.
Proof.
  induction l as [| a l IH]; simpl; intros Hn; [reflexivity |].
  destruct (Z.eqb (agent_id a) x) eqn:E.
  - apply Z.eqb_eq in E. exfalso; tauto.
  - simpl. f_equal. apply IH. tauto.
Qed.

Lemma remove_first_id_filter (x : Z) (l : list AgentInfo) :
  ids_unique l ->
  remove_first_id x l = filter (fun a => negb (Z.eqb (agent_id a) x)) l.
Proof.
  induction l as [| a l IH]; simpl; intros Hnd; [reflexivity |].
  inversion Hnd as [| ? ? Hnot Hnd']; subst.
  destruct (Z.eqb (agent_id a) x) eqn:E; simpl.
  - apply Z.eqb_eq in E. subst x. symmetry. apply filter_all_other. exact Hnot.
  - f_equal. apply IH. exact Hnd'.
Qed.

Lemma filter_conj {A} (l : list A) (p q : A -> bool) :
  filter (fun a => andb (q a) (p a)) l = filter p (filter q l).
Proof.
  revert p q. induction l as [| x xs IHxs]; intros p q; cbn; [reflexivity |].
  destruct (q x) eqn:Hq; cbn; [| apply IHxs].
  destruct (p x); cbn; rewrite IHxs; reflexivity.
Qed.

(** Removing agents one at a time by [findIndex]/[splice] removes exactly
    those whose [agent_id] is listed, when ids are distinct. *)
Lemma fold_remove_first_id (r l : list AgentInfo) :
  ids_unique l ->
  fold_left (fun l a => remove_first_id (agent_id a) l) r l =
  filter (not_removed r) l.
Proof.
  revert l. induction r as [| b r IH]; intros l Hnd; simpl.
  - symmetry. apply forallb_filter_id. apply forallb_forall. reflexivity.
  - rewrite remove_first_id_filter by exact Hnd.
    rewrite IH by (apply (NoDup_map_filter l); exact Hnd).
    rewrite <- filter_conj. apply filter_ext. intros a.
    unfold not_removed. simpl. rewrite (Z.eqb_sym (agent_id b) (agent_id a)).
    destruct (Z.eqb (agent_id a) (agent_id b)); reflexivity.
Qed.

Lemma in_firstn {A} (k : nat) (l : list A) (x : A) : In x (firstn k l) -> In x l.
Proof.
  intros Hin. rewrite <- (firstn_skipn k l). apply in_or_app. left. exact Hin.
Qed.

Lemma add_auto_agents_boss (k : nat) (h : Hierarchy) (now : Z) :
  boss_agent (add_auto_agents k h now) = boss_agent h.
Proof. revert h. induction k as [| k IH]; intros h; simpl; [| rewrite IH]; reflexivity. Qed.

Lemma add_auto_agents_subs (k : nat) (h : Hierarchy) (now : Z) :
  exists added, subordinate_agents (add_auto_agents k h now) = subordinate_agents h ++ added.
Proof.
  revert h. induction k as [| k IH]; intros h; simpl.
  - exists []. symmetry. apply app_nil_r.
  - destruct (IH (add_auto_agent h now)) as [added Hadded]. rewrite Hadded.
    simpl. eexists. rewrite <- app_assoc. reflexivity.
Qed.

(** What a [scale_agents] that terminates produces: the boss as it was,
    [total_agents] and the statistics recomputed, and the subordinates of
    some number of iterations of the scale-up loop, or of the scale-down
    loop over the idle agents (none when the target equals the count). *)
Lemma scale_agents_result (h : Hierarchy) (t : jsnum) (now : Z) (h' : Hierarchy) :
  scale_agents h t now = Some h' ->
  boss_agent h' = boss_agent h /\
  total_agents h' = Z.of_nat (List.length (subordinate_agents h')) + 1 /\
  hierarchy_stats h' = compute_stats (subordinate_agents h') (total_agents h') /\
  ((exists k, subordinate_agents h' = subordinate_agents (add_auto_agents k h now) /\
              next_agent_id h' = next_agent_id (add_auto_agents k h now)) \/
   (exists k, subordinate_agents h' =
                fold_left (fun l a => remove_first_id (agent_id a) l)
                          (firstn k (filter (is_status "idle") (subordinate_agents h)))
                          (subordinate_agents h) /\
              next_agent_id h' = next_agent_id h)).
Proof.
  unfold scale_agents. cbv zeta. intros Hs.
  destruct (gt_int t _).
  - unfold add_agents in Hs. destruct (loop_count _) as [k |]; [| discriminate].
    injection Hs as <-. cbn [boss_agent total_agents hierarchy_stats
                               subordinate_agents next_agent_id].
    split; [apply add_auto_agents_boss |]. split; [reflexivity |].
    split; [reflexivity |]. left. exists k. split; reflexivity.
  - destruct (lt_int t _).
    + unfold remove_idle_agents in Hs. destruct (loop_count _) as [k |]; [| discriminate].
      injection Hs as <-. cbn [boss_agent total_agents hierarchy_stats
                                 subordinate_agents next_agent_id with_subordinates].
      split; [reflexivity |]. split; [reflexivity |].
      split; [reflexivity |]. right. exists k. split; reflexivity.
    + injection Hs as <-. cbn [boss_agent total_agents hierarchy_stats
                                 subordinate_agents next_agent_id].
      split; [reflexivity |]. split; [reflexivity |].
      split; [reflexivity |]. right. exists O. split; reflexivity.
Qed.

(** A request that answers either leaves the hierarchy as it was, adds one
    agent by [create_agent], or scales. *)
Lemma post_some (h : Hierarchy) (now : Z) (b : option Body) (r : Response)
    (h' : Hierarchy) :
  post h now b = Some (r, h') ->
  h' = h \/ (exists nm, h' = create_agent h nm now) \/
  (exists t, scale_agents h t now = Some h').
Proof.
  destruct b as [b |]; unfold post; intros Hp.
  2: { injection Hp as _ <-. left; reflexivity. }
  destruct (action_is b "create_agent").
  - destruct (req_agent_name b) as [[| c nm] |]; injection Hp as _ <-;
      [left | right; left; eexists | left]; reflexivity.
  - destruct (action_is b "scale_agents"); [| injection Hp as _ <-; left; reflexivity].
    destruct (target_count b) as [t |]; [| injection Hp as _ <-; left; reflexivity].
    destruct (scale_agents h t now) as [h1 |] eqn:E; [| discriminate].
    injection Hp as _ <-. right; right. exists t. exact E.
Qed.

(** An invariant of every answered request holds in every hierarchy that a
    sequence of requests reaches. *)
Lemma run_invariant (P : Hierarchy -> Prop) (h h' : Hierarchy)
    (reqs : list (Z * option Body)) :
  (forall h now b r h', P h -> post h now b = Some (r, h') -> P h') ->
  P h -> run h reqs = Some h' -> P h'.
Proof.
  intros Hstep. revert h. induction reqs as [| [now b] reqs IH]; intros h Hh Hrun;
    simpl in Hrun.
  - injection Hrun as <-. exact Hh.
  - destruct (post h now b) as [[r h1] |] eqn:Ep; [| discriminate].
    exact (IH h1 (Hstep h now b r h1 Hh Ep) Hrun).
Qed.

(** Subordinate ids are distinct, at least 1 (the boss has 0) and below
    [next_agent_id], which is at least 1. *)
Definition ids_ok (h : Hierarchy) : Prop :=
  ids_unique (subordinate_agents h) /\
  1 <= next_agent_id h /\
  (forall a, In a (subordinate_agents h) -> 1 <= agent_id a < next_agent_id h).

Lemma ids_snoc (l : list AgentInfo) (nxt : Z) (x : AgentInfo) :
  ids_unique l -> 1 <= nxt -> (forall a, In a l -> 1 <= agent_id a < nxt) ->
  agent_id x = nxt ->
  ids_unique (l ++ [x]) /\ 1 <= nxt + 1 /\
  (forall a, In a (l ++ [x]) -> 1 <= agent_id a < nxt + 1).
Proof.
  intros Hnd Hn Hlt Hx. split; [| split; [lia |]].
  - unfold ids_unique. rewrite map_app. apply NoDup_app; [exact Hnd | repeat constructor; simpl; tauto |].
    intros i Hi [Hi' | []]. apply in_map_iff in Hi. destruct Hi as [a [<- Ha]].
    specialize (Hlt a Ha). lia.
  - intros a Ha. apply in_app_or in Ha. destruct Ha as [Ha | [<- | []]].
    + specialize (Hlt a Ha). lia.
    + lia.
Qed.

Lemma add_auto_agents_ids (k : nat) (h : Hierarchy) (now : Z) :
  ids_ok h -> ids_ok (add_auto_agents k h now).
Proof.
  revert h. induction k as [| k IH]; intros h [Hnd [Hn Hlt]]; simpl; [split; auto |].
  apply IH. unfold add_auto_agent. cbn [subordinate_agents next_agent_id].
  apply ids_snoc; auto.
Qed.

Lemma post_preserves_ids (h : Hierarchy) (now : Z) (b : option Body)
    (r : Response) (h' : Hierarchy) :
  ids_ok h -> post h now b = Some (r, h') -> ids_ok h'.
Proof.
  intros Hok Hp.
  destruct (post_some h now b r h' Hp) as [-> | [[nm ->] | [t Hs]]]; [exact Hok | |].
  - destruct Hok as [Hnd [Hn Hlt]]. unfold create_agent.
    cbn [subordinate_agents next_agent_id]. apply ids_snoc; auto.
  - destruct (scale_agents_result h t now h' Hs) as [_ [_ [_ [[k [Hsub Hnext]] | [k [Hsub Hnext]]]]]].
    + destruct (add_auto_agents_ids k h now Hok) as [Hnd [Hn Hlt]].
      unfold ids_ok. rewrite Hsub, Hnext. auto.
    + destruct Hok as [Hnd [Hn Hlt]]. unfold ids_ok. rewrite Hsub, Hnext.
      rewrite fold_remove_first_id by exact Hnd.
      split; [apply NoDup_map_filter; exact Hnd | split; [exact Hn |]].
      intros a Ha. apply filter_In in Ha. apply Hlt. apply Ha.
Qed.

Lemma mockAgentHierarchy_ids (t0 : Z) : ids_ok (mockAgentHierarchy t0).
Proof.
  split; [| split; [simpl; lia |]].
  - unfold ids_unique. simpl. constructor; [simpl; lia |]. constructor; [simpl; tauto | constructor].
  - intros a Ha. simpl in Ha. destruct Ha as [<- | [<- | []]]; simpl; lia.
Qed.

Definition scale_request (t : jsnum) : option Body :=
  Some {| action := Some "scale_agents"; req_agent_name := None; target_count := Some t |}.

Definition create_request (nm : string) : option Body :=
  Some {| action := Some "create_agent"; req_agent_name := Some nm; target_count := None |}.

Lemma post_scale (h : Hierarchy) (now : Z) (t : jsnum) :
  post h now (scale_request t) =
  match scale_agents h t now with Some h' => Some (Scaled t, h') | None => None end.
Proof. reflexivity. Qed.

End HierarchyFacts.

Section HierarchyClaims.
Import JsNumber Hierarchy.
Local Open Scope Z_scope.
Local Open Scope list_scope.

(** The request times of a sequence, from the module's start [t0] on, do
    not decrease. *)
Fixpoint times_ok (t0 : Z) (reqs : list (Z * option Body)) : Prop :=
  match reqs with
  | [] => True
  | (now, _) :: reqs' => t0 <= now /\ times_ok now reqs'
  end.

Definition active_le (a b : AgentInfo) : Prop := last_active a <= last_active b.

(** The subordinates are in order of [last_active], none later than [t]. *)
Definition activity_ordered (t : Z) (h : Hierarchy) : Prop :=
  StronglySorted active_le (subordinate_agents h) /\
  (forall a, In a (subordinate_agents h) -> last_active a <= t).

Lemma StronglySorted_snoc {A} (R : A -> A -> Prop) (l : list A) (x : A) :
  StronglySorted R l -> (forall a, In a l -> R a x) -> StronglySorted R (l ++ [x]).
Proof.
  induction l as [| y l IH]; simpl; intros Hs Hx.
  - repeat constructor.
  - inversion Hs as [| ? ? Hs' Hall]; subst. constructor.
    + apply IH; [exact Hs' | intros a Ha; apply Hx; right; exact Ha].
    + apply Forall_app. split; [exact Hall |]. constructor; [apply Hx; left; reflexivity | constructor].
Qed.

Lemma StronglySorted_filter {A} (R : A -> A -> Prop) (p : A -> bool) (l : list A) :
  StronglySorted R l -> StronglySorted R (filter p l).
Proof.
  induction l as [| y l IH]; simpl; intros Hs; [constructor |].
  inversion Hs as [| ? ? Hs' Hall]; subst.
  destruct (p y); [constructor |]; auto.
  apply Forall_forall. intros a Ha. apply filter_In in Ha.
  exact (proj1 (Forall_forall _ _) Hall a (proj1 Ha)).
Qed.

Lemma StronglySorted_app_in {A} (R : A -> A -> Prop) (l1 l2 : list A) (x y : A) :
  StronglySorted R (l1 ++ l2) -> In x l1 -> In y l2 -> R x y.
Proof.
  induction l1 as [| z l1 IH]; simpl; intros Hs Hx Hy; [destruct Hx |].
  inversion Hs as [| ? ? Hs' Hall]; subst. destruct Hx as [<- | Hx].
  - exact (proj1 (Forall_forall _ _) Hall y (in_or_app _ _ _ (or_intror Hy))).
  - exact (IH Hs' Hx Hy).
Qed.

Lemma add_auto_agents_ordered (k : nat) (h : Hierarchy) (t now : Z) :
  t <= now -> activity_ordered t h -> activity_ordered now (add_auto_agents k h now).
Proof.
  intros Hle. revert h t Hle. induction k as [| k IH]; intros h t Hle [Hs Hb]; simpl.
  - split; [exact Hs | intros a Ha; specialize (Hb a Ha); lia].
  - apply (IH _ now); [lia |]. unfold add_auto_agent. cbn [subordinate_agents].
    split.
    + apply StronglySorted_snoc; [exact Hs |]. intros a Ha. unfold active_le.
      cbn. specialize (Hb a Ha). lia.
    + intros a Ha. apply in_app_or in Ha. destruct Ha as [Ha | [<- | []]];
        [specialize (Hb a Ha); lia | cbn; lia].
Qed.

(** Requests at nondecreasing times keep the subordinates in order of
    [last_active]: every agent added is stamped with the time of its
    request. *)
Lemma post_preserves_order (h : Hierarchy) (t now : Z) (b : option Body)
    (r : Response) (h' : Hierarchy) :
  ids_ok h -> t <= now -> activity_ordered t h -> post h now b = Some (r, h') ->
  activity_ordered now h'.
Proof.
  intros Hok Hle Ho Hp. destruct Ho as [Hs Hb].
  destruct (post_some h now b r h' Hp) as [-> | [[nm ->] | [tc Hsc]]].
  - split; [exact Hs | intros a Ha; specialize (Hb a Ha); lia].
  - unfold create_agent. cbn [subordinate_agents]. split.
    + apply StronglySorted_snoc; [exact Hs |]. intros a Ha. unfold active_le.
      cbn. specialize (Hb a Ha). lia.
    + intros a Ha. apply in_app_or in Ha. destruct Ha as [Ha | [<- | []]];
        [specialize (Hb a Ha); lia | cbn; lia].
  - destruct (scale_agents_result h tc now h' Hsc) as [_ [_ [_ [[k [Hsub _]] | [k [Hsub _]]]]]].
    + destruct (add_auto_agents_ordered k h t now Hle (conj Hs Hb)) as [Hs' Hb'].
      unfold activity_ordered. rewrite Hsub. auto.
    + unfold activity_ordered. rewrite Hsub.
      rewrite fold_remove_first_id by apply Hok.
      split; [apply StronglySorted_filter; exact Hs |].
      intros a Ha. apply filter_In in Ha. specialize (Hb a (proj1 Ha)). lia.
Qed.

Lemma run_ordered (t0 : Z) (reqs : list (Z * option Body)) (h : Hierarchy) :
  forall h0, ids_ok h0 -> activity_ordered t0 h0 -> times_ok t0 reqs ->
  run h0 reqs = Some h -> ids_ok h /\ exists t, activity_ordered t h.
Proof.
  revert t0. induction reqs as [| [now b] reqs IH]; intros t0 h0 Hok Ho Ht Hrun;
    simpl in Hrun.
  - injection Hrun as <-. split; [exact Hok | exists t0; exact Ho].
  - destruct Ht as [Hle Ht].
    destruct (post h0 now b) as [[r h1] |] eqn:Ep; [| discriminate].
    apply (IH now h1); [| | exact Ht | exact Hrun].
    + exact (post_preserves_ids h0 now b r h1 Hok Ep).
    + exact (post_preserves_order h0 t0 now b r h1 Hok Hle Ho Ep).
Qed.

Lemma mockAgentHierarchy_ordered (t0 : Z) : activity_ordered t0 (mockAgentHierarchy t0).
Proof.
  split.
  - repeat constructor; unfold active_le; simpl; lia.
  - intros a Ha. simpl in Ha. destruct Ha as [<- | [<- | []]]; simpl; lia.
Qed.

(** An agent the scale-down loop removes is among the first [k] idle
    agents (matched by id). *)
Lemma removed_first_idle (subs : list AgentInfo) (k : nat) (a : AgentInfo) :
  ids_unique subs -> In a subs ->
  not_removed (firstn k (filter (is_status "idle") subs)) a = false ->
  In a (firstn k (filter (is_status "idle") subs)) /\ status a = "idle".
Proof.
  intros Hnd Ha E.
  unfold not_removed in E. apply negb_false_iff, existsb_exists in E.
  destruct E as [c [Hc Heq]]. apply Z.eqb_eq in Heq.
  assert (Hcs : In c subs) by (apply in_firstn in Hc; apply filter_In in Hc; apply Hc).
  assert (c = a) as <- by (apply (NoDup_map_inj agent_id subs); assumption).
  split; [exact Hc |]. apply in_firstn, filter_In in Hc.
  apply String.eqb_eq. apply Hc.
Qed.

(** C6: in every hierarchy the route reaches, a [scale_agents] request that
    answers leaves the boss as it was and keeps every subordinate whose
    status is not ["idle"], unchanged; only idle subordinates are removed,
    and each removed one was last active no later than every idle
    subordinate kept: the least recently active idle agents go first. The
    hierarchies reached are those of requests from [mockAgentHierarchy t0]
    at times from [t0] on that do not decrease (the route stamps
    [last_active] with the time of the request). *)
Theorem C6_scale_keeps_boss_and_working_agents :
  forall (t0 : Z) (reqs : list (Z * option Body)) (h : Hierarchy)
         (now : Z) (t : jsnum) (r : Response) (h' : Hierarchy),
    times_ok t0 reqs ->
    run (mockAgentHierarchy t0) reqs = Some h ->
    post h now (scale_request t) = Some (r, h') ->
    boss_agent h' = boss_agent h /\
    (forall a, In a (subordinate_agents h) -> status a <> "idle" ->
               In a (subordinate_agents h')) /\
    (forall a, In a (subordinate_agents h) -> ~ In a (subordinate_agents h') ->
               status a = "idle") /\
    (forall a b, In a (subordinate_agents h) -> ~ In a (subordinate_agents h') ->
                 In b (subordinate_agents h') -> status b = "idle" ->
                 last_active a <= last_active b).
Proof.
  intros t0 reqs h now t r h' Ht Hrun Hp.
  destruct (run_ordered t0 reqs h (mockAgentHierarchy t0) (mockAgentHierarchy_ids t0)
              (mockAgentHierarchy_ordered t0) Ht Hrun) as [Hok [T [Hs _]]].
  assert (Hnd : ids_unique (subordinate_agents h)) by apply Hok.
  rewrite post_scale in Hp.
  destruct (scale_agents h t now) as [h1 |] eqn:Hsc; [| discriminate].
  injection Hp as _ <-.
  destruct (scale_agents_result h t now h1 Hsc) as [Hboss [_ [_ Hcase]]].
  split; [exact Hboss |].
  destruct Hcase as [[k [Hsub _]] | [k [Hsub _]]].
  - destruct (add_auto_agents_subs k h now) as [added Hadded].
    rewrite Hsub, Hadded.
    split; [intros a Ha _; apply in_or_app; left; exact Ha |].
    split; intros a; [| intros b]; intros Ha Hn; exfalso; apply Hn;
      apply in_or_app; left; exact Ha.
  - rewrite Hsub. rewrite fold_remove_first_id by exact Hnd.
    set (idl := filter (is_status "idle") (subordinate_agents h)).
    assert (Hrem : forall a, In a (subordinate_agents h) ->
                   ~ In a (filter (not_removed (firstn k idl)) (subordinate_agents h)) ->
                   In a (firstn k idl) /\ status a = "idle").
    { intros a Ha Hn. apply (removed_first_idle _ k a Hnd Ha).
      destruct (not_removed (firstn k idl) a) eqn:E; [| exact E].
      exfalso. apply Hn. apply filter_In. split; assumption. }
    split; [| split].
    + intros a Ha Hst. apply filter_In. split; [exact Ha |].
      destruct (not_removed (firstn k idl) a) eqn:E; [reflexivity |].
      exfalso. apply Hst. apply (removed_first_idle _ k a Hnd Ha E).
    + intros a Ha Hn. apply (Hrem a Ha Hn).
    + intros a b Ha Hn Hb Hbi. destruct (Hrem a Ha Hn) as [Ha1 _].
      apply filter_In in Hb. destruct Hb as [Hb Hbk].
      assert (Hbidle : In b idl)
        by (apply filter_In; split; [exact Hb | apply String.eqb_eq; exact Hbi]).
      assert (Hb2 : In b (skipn k idl)).
      { rewrite <- (firstn_skipn k idl) in Hbidle. apply in_app_or in Hbidle.
        destruct Hbidle as [Hb1 | Hb2]; [| exact Hb2]. exfalso.
        unfold not_removed in Hbk. apply negb_true_iff in Hbk.
        assert (Hex : existsb (fun c => Z.eqb (agent_id c) (agent_id b)) (firstn k idl) = true)
          by (apply existsb_exists; exists b; split; [exact Hb1 | apply Z.eqb_refl]).
        congruence. }
      apply (StronglySorted_app_in active_le (firstn k idl) (skipn k idl));
        [rewrite firstn_skipn; apply StronglySorted_filter; exact Hs | exact Ha1 | exact Hb2].
Qed.

Lemma C6_witness :
  exists h r h',
    run (mockAgentHierarchy 0) [(5, create_request "Ops")] = Some h /\
    post h 6 (scale_request (Finite 2 0)) = Some (r, h') /\
    boss_agent h' = boss_agent h.
Proof.
  do 3 eexists. split; [reflexivity |]. split; [reflexivity |].
  refine (proj1 (C6_scale_keeps_boss_and_working_agents 0 [(5, create_request "Ops")]
                   _ 6 (Finite 2 0) _ _ _ _ _)); [simpl; lia | reflexivity | reflexivity].
Defined.

Definition hierarchy_inv (h : Hierarchy) : Prop :=
  total_agents h = Z.of_nat (List.length (subordinate_agents h)) + 1 /\
  agent_id (boss_agent h) = 0.

Lemma post_preserves_inv (h : Hierarchy) (now : Z) (b : option Body)
    (r : Response) (h' : Hierarchy) :
  hierarchy_inv h -> post h now b = Some (r, h') -> hierarchy_inv h'.
Proof.
  intros [Htot Hboss] Hp.
  destruct (post_some h now b r h' Hp) as [-> | [[nm ->] | [t Hs]]];
    [split; assumption | |].
  - split; [| exact Hboss]. unfold create_agent. cbn [total_agents subordinate_agents].
    rewrite length_app, Nat2Z.inj_add. simpl. lia.
  - destruct (scale_agents_result h t now h' Hs) as [Hb [Ht _]].
    split; [exact Ht | rewrite Hb; exact Hboss].
Qed.

(** C9: every request that answers keeps [total_agents] equal to the number
    of subordinates plus one and the boss at [agent_id] 0; the module's
    initial hierarchy satisfies both, hence so does every state reached by
    a sequence of requests. *)
Theorem C9_total_agents_consistent :
  (forall h now b r h', hierarchy_inv h -> post h now b = Some (r, h') ->
                        hierarchy_inv h') /\
  (forall t0, hierarchy_inv (mockAgentHierarchy t0)) /\
  (forall t0 reqs h, run (mockAgentHierarchy t0) reqs = Some h -> hierarchy_inv h).
Proof.
  assert (Hinit : forall t0, hierarchy_inv (mockAgentHierarchy t0))
    by (intros t0; split; reflexivity).
  split; [exact post_preserves_inv | split; [exact Hinit |]].
  intros t0 reqs h. apply run_invariant; [exact post_preserves_inv | apply Hinit].
Qed.

Lemma C9_witness :
  exists r h',
    post (mockAgentHierarchy 0) 5 (create_request "Ops") = Some (r, h') /\
    hierarchy_inv h'.
Proof.
  do 2 eexists. split; [reflexivity |].
  destruct C9_total_agents_consistent as [Hpost _].
  refine (Hpost (mockAgentHierarchy 0) 5 (create_request "Ops") _ _ _ _);
    [split; reflexivity | reflexivity].
Defined.

End HierarchyClaims.

(** * Further properties of the routes and components *)

(** ** [GET /api/tasks]: the [limit] parameter *)
Section TasksLimitFacts.
Import Json TasksRoute.
Local Open Scope Z_scope.

(** The filter of [GET /api/tasks] as the route applies it before [limit]. *)
Definition filtered (mockTasks : store) (status : option string) : list jsobj :=
  get_tasks mockTasks status None.

(** X1: with a positive [limit], [GET /api/tasks] returns at most [limit]
    tasks, a prefix of the filtered list; each one is a stored task and, when
    a non-empty [status] is given, has that status. *)
Theorem get_tasks_positive_limit (mockTasks : store) (status : option string)
    (limit : Z) :
  0 < limit ->
  let r := get_tasks mockTasks status (Some limit) in
  (List.length r <= Z.to_nat limit)%nat /\
  (exists rest, filtered mockTasks status = (r ++ rest)%list) /\
  (forall t, In t r ->
     In t mockTasks /\
     (forall s, status = Some s -> s <> "" -> status_matches s t = true)).
Proof.
  intros Hpos r.
  assert (Hr : r = firstn (Z.to_nat limit) (filtered mockTasks status)).
  { unfold r, filtered, get_tasks, slice0.
    replace (Z.eqb limit 0) with false by (symmetry; apply Z.eqb_neq; lia).
    replace (Z.leb 0 limit) with true by (symmetry; apply Z.leb_le; lia).
    reflexivity. }
  rewrite Hr. split; [apply firstn_le_length |]. split.
  - exists (skipn (Z.to_nat limit) (filtered mockTasks status)).
    symmetry. apply firstn_skipn.
  - intros t Hin.
    assert (Hf : In t (filtered mockTasks status)).
    { rewrite <- (firstn_skipn (Z.to_nat limit) (filtered mockTasks status)).
      apply in_or_app. left. exact Hin. }
    unfold filtered, get_tasks in Hf. split.
    + destruct status as [st |]; [| exact Hf].
      destruct (String.eqb st ""); [exact Hf |].
      apply filter_In in Hf. apply Hf.
    + intros s Hs Hne. subst status.
      destruct (String.eqb s "") eqn:E; [apply String.eqb_eq in E; contradiction |].
      apply filter_In in Hf. apply Hf.
Qed.

Lemma get_tasks_positive_limit_witness :
  (List.length (get_tasks [[("status", JStr "failed")]; [("status", JStr "pending")];
                           [("status", JStr "failed")]] (Some "failed") (Some 1%Z))
   <= Z.to_nat 1)%nat.
Proof.
  apply (get_tasks_positive_limit
           [[("status", JStr "failed")]; [("status", JStr "pending")];
            [("status", JStr "failed")]] (Some "failed") 1).
  lia.
Defined.

(** X2: the [limit] edge cases of [GET /api/tasks]: [limit=0] (and a
    non-numeric [limit], parsed as [NaN]) returns every filtered task, as
    does any limit at least their number; a negative [limit = -k] drops the
    last [k] filtered tasks ([slice(0, -k)]), leaving none when [k] is at
    least their number. *)
Theorem get_tasks_limit_edges (mockTasks : store) (status : option string) :
  let f := filtered mockTasks status in
  get_tasks mockTasks status (Some 0) = f /\
  (forall l, Z.of_nat (List.length f) <= l -> get_tasks mockTasks status (Some l) = f) /\
  (forall k, 0 < k ->
     get_tasks mockTasks status (Some (- k)) =
     firstn (List.length f - Z.to_nat k) f).
Proof.
  intros f.
  assert (Hs : forall l, l <> 0 -> get_tasks mockTasks status (Some l) = slice0 f l).
  { intros l Hl. unfold f, filtered, get_tasks.
    replace (Z.eqb l 0) with false by (symmetry; apply Z.eqb_neq; exact Hl).
    reflexivity. }
  split; [reflexivity | split].
  - intros l Hl. destruct (Z.eq_dec l 0) as [-> | Hne]; [reflexivity |].
    rewrite (Hs l Hne). unfold slice0.
    replace (Z.leb 0 l) with true by (symmetry; apply Z.leb_le; lia).
    apply firstn_all2. lia.
  - intros k Hk. rewrite (Hs (- k)) by lia. unfold slice0.
    replace (Z.leb 0 (- k)) with false by (symmetry; apply Z.leb_gt; lia).
    f_equal. lia.
Qed.

Lemma get_tasks_limit_edges_witness :
  get_tasks [[("status", JStr "a")]; [("status", JStr "b")]; [("status", JStr "c")]]
            None (Some (Z.opp 2))
  = firstn (List.length (filtered [[("status", JStr "a")]; [("status", JStr "b")];
                                   [("status", JStr "c")]] None) - Z.to_nat 2)
           (filtered [[("status", JStr "a")]; [("status", JStr "b")];
                      [("status", JStr "c")]] None).
Proof.
  destruct (get_tasks_limit_edges
              [[("status", JStr "a")]; [("status", JStr "b")]; [("status", JStr "c")]]
              None) as [_ [_ H]].
  apply H. lia.
Defined.

End TasksLimitFacts.

(** ** [POST /api/agents] *)
Section AgentsRouteFacts.
Import Json AgentsRoute.

(** X3: [POST /api/agents] answers 201 with the defaults ([id]
    ["agent-<now>"], [created_at], [is_available: true],
    [max_concurrent_tasks: 3], [capabilities: []]) overridden by every field
    of the body; it answers 500 when the body is not JSON; in both cases the
    agent list is left as it was (the new agent is not stored). *)
Theorem post_agents_fields_and_store (mockAgents : list jsobj) (now_ms : Z)
    (now_iso : string) (agentData : jsval) :
  NoDup (map fst (spread_source agentData)) ->
  post_agents mockAgents now_ms now_iso None = (Error 500 "Failed to create agent", mockAgents) /\
  exists agent,
    post_agents mockAgents now_ms now_iso (Some agentData) = (Created agent, mockAgents) /\
    forall k, lookup k agent =
      match lookup k (spread_source agentData) with
      | Some v => Some v
      | None => lookup k (default_agent now_ms now_iso)
      end.
Proof.
  intros Hnd. split; [reflexivity |].
  eexists. split; [reflexivity |]. intros k. apply lookup_spread. exact Hnd.
Qed.

Lemma post_agents_fields_and_store_witness :
  exists agent,
    post_agents [] 7 "now" (Some (JObj [("name", JStr "Scout"); ("max_concurrent_tasks", JNum 5)]))
    = (Created agent, []) /\
    forall k, lookup k agent =
      match lookup k [("name", JStr "Scout"); ("max_concurrent_tasks", JNum 5)] with
      | Some v => Some v
      | None => lookup k (default_agent 7 "now")
      end.
Proof.
  apply (post_agents_fields_and_store [] 7 "now"
           (JObj [("name", JStr "Scout"); ("max_concurrent_tasks", JNum 5)])).
  simpl. constructor; [simpl; intuition discriminate |].
  constructor; [simpl; tauto | constructor].
Defined.

End AgentsRouteFacts.

(** ** The agent hierarchy: failures, ids, sizes and counters *)
Section HierarchyMoreFacts.
Import JsNumber Hierarchy.
Local Open Scope Z_scope.
Local Open Scope list_scope.

(** X4: a request the hierarchy route refuses (body not JSON or [null],
    [create_agent] without a name or with an empty one, [scale_agents]
    without a numeric [target_count], any other [action]) answers 400 or 500
    and leaves the hierarchy as it was. *)
Theorem post_failure_leaves_hierarchy (h : Hierarchy) (now : Z) (b : option Body)
    (code : Z) (msg : string) (h' : Hierarchy) :
  post h now b = Some (Failure code msg, h') ->
  h' = h /\ (code = 400 \/ code = 500).
Proof.
  destruct b as [b |]; unfold post.
  - destruct (action_is b "create_agent").
    + destruct (req_agent_name b) as [[| c nm] |]; intros Hf;
        try discriminate; injection Hf as <- _ <-; auto.
    + destruct (action_is b "scale_agents").
      * destruct (target_count b) as [t |]; intros Hf.
        -- destruct (scale_agents h t now); discriminate.
        -- injection Hf as <- _ <-. auto.
      * intros Hf. injection Hf as <- _ <-. auto.
  - intros Hf. injection Hf as <- _ <-. auto.
Qed.

Lemma post_failure_leaves_hierarchy_witness :
  mockAgentHierarchy 0 = mockAgentHierarchy 0 /\ (400 = 400 \/ 400 = 500).
Proof.
  apply (post_failure_leaves_hierarchy (mockAgentHierarchy 0) 1 (create_request "")
           400 "Agent name is required").
  reflexivity.
Defined.

(** X5: every request that answers keeps the subordinate ids distinct, at
    least 1 (so none equals the boss's 0) and below [next_agent_id]; the
    initial hierarchy has this, hence every hierarchy reached by requests
    (where the id-based removal of [scale_agents] therefore removes the
    intended agents). *)
Theorem hierarchy_ids_distinct :
  (forall h now b r h', ids_ok h -> post h now b = Some (r, h') -> ids_ok h') /\
  (forall t0 reqs h, run (mockAgentHierarchy t0) reqs = Some h -> ids_ok h).
Proof.
  split; [exact post_preserves_ids |].
  intros t0 reqs h. apply run_invariant; [exact post_preserves_ids |].
  apply mockAgentHierarchy_ids.
Qed.

Lemma hierarchy_ids_distinct_witness :
  exists r h',
    post (mockAgentHierarchy 0) 5 (scale_request (Finite 4 0)) = Some (r, h') /\
    ids_ok h'.
Proof.
  do 2 eexists. split; [reflexivity |].
  destruct hierarchy_ids_distinct as [Hpost _].
  refine (Hpost (mockAgentHierarchy 0) 5 (scale_request (Finite 4 0)) _ _ _ _);
    [apply mockAgentHierarchy_ids | reflexivity].
Defined.

(** Agent 2 of [mockAgentHierarchy t0], busy. *)
Definition analysis_agent (t0 : Z) : AgentInfo :=
  nth 1 (subordinate_agents (mockAgentHierarchy t0)) (boss t0).

Lemma post_keeps_busy (h : Hierarchy) (now : Z) (b : option Body) (r : Response)
    (h' : Hierarchy) (a : AgentInfo) :
  ids_ok h -> In a (subordinate_agents h) -> status a <> "idle" ->
  post h now b = Some (r, h') -> In a (subordinate_agents h').
Proof.
  intros Hok Ha Hst Hp.
  destruct (post_some h now b r h' Hp) as [-> | [[nm ->] | [t Hs]]]; [exact Ha | |].
  - unfold create_agent. cbn [subordinate_agents]. apply in_or_app. left. exact Ha.
  - destruct (scale_agents_result h t now h' Hs) as [_ [_ [_ [[k [Hsub _]] | [k [Hsub _]]]]]].
    + destruct (add_auto_agents_subs k h now) as [added Hadded].
      rewrite Hsub, Hadded. apply in_or_app. left. exact Ha.
    + rewrite Hsub. rewrite fold_remove_first_id by apply Hok.
      apply filter_In. split; [exact Ha |].
      destruct (not_removed _ a) eqn:E; [reflexivity |].
      exfalso. apply Hst. apply (removed_first_idle _ k a (proj1 Hok) Ha E).
Qed.

(** X17: agent 2, busy in the initial hierarchy, is still there, unchanged,
    in every hierarchy the route reaches: no request changes the status of
    an agent and [scale_agents] removes idle agents only. So no reached
    hierarchy is without subordinates. *)
Theorem analysis_agent_persists (t0 : Z) (reqs : list (Z * option Body))
    (h : Hierarchy) :
  run (mockAgentHierarchy t0) reqs = Some h ->
  In (analysis_agent t0) (subordinate_agents h) /\
  (1 <= List.length (subordinate_agents h))%nat.
Proof.
  intros Hrun.
  assert (Hinv : ids_ok h /\ In (analysis_agent t0) (subordinate_agents h)).
  { apply (run_invariant (fun h => ids_ok h /\ In (analysis_agent t0) (subordinate_agents h))
             (mockAgentHierarchy t0) h reqs); [| | exact Hrun].
    - intros h1 now b r h2 [Hok Hin] Hp. split.
      + exact (post_preserves_ids h1 now b r h2 Hok Hp).
      + apply (post_keeps_busy h1 now b r h2 _ Hok Hin); [discriminate | exact Hp].
    - split; [apply mockAgentHierarchy_ids | right; left; reflexivity]. }
  destruct Hinv as [_ Hin]. split; [exact Hin |].
  destruct (subordinate_agents h); [destruct Hin | simpl; lia].
Qed.

Lemma analysis_agent_persists_witness :
  In (analysis_agent 0) (subordinate_agents (mockAgentHierarchy 0)) /\
  (1 <= List.length (subordinate_agents (mockAgentHierarchy 0)))%nat.
Proof. apply (analysis_agent_persists 0 []). reflexivity. Defined.

End HierarchyMoreFacts.

Section HierarchySizeFacts.
Import JsNumber Hierarchy.
Local Open Scope Z_scope.
Local Open Scope list_scope.















(** [idle_agents], [busy_agents] and [total_completed_tasks] agree with the
    subordinate list (the boss counting 15 completed tasks). *)
Definition counters_ok (h : Hierarchy) : Prop :=
  let st := hierarchy_stats h in
  let subs := subordinate_agents h in
  idle_agents st = count_status "idle" subs /\
  busy_agents st = count_status "busy" subs /\
  total_completed_tasks st = fold_left (fun s a => s + completed_tasks a) subs 15.

Lemma post_preserves_counters (h : Hierarchy) (now : Z) (b : option Body)
    (r : Response) (h' : Hierarchy) :
  counters_ok h -> post h now b = Some (r, h') -> counters_ok h'.
Proof.
  intros Hok Hp.
  destruct (post_some h now b r h' Hp) as [-> | [[nm ->] | [t Hs]]]; [exact Hok | |].
  - destruct Hok as [Hi [Hb Hc]]. unfold counters_ok, create_agent, count_status in *.
    cbn [hierarchy_stats subordinate_agents idle_agents busy_agents total_completed_tasks].
    rewrite !filter_app, !length_app, fold_left_app. cbn. rewrite Hi, Hb, Hc.
    split; [| split]; lia.
  - destruct (scale_agents_result h t now h' Hs) as [_ [_ [Hst _]]].
    unfold counters_ok. rewrite Hst. split; [| split]; reflexivity.
Qed.

(** X7: the route keeps [idle_agents], [busy_agents] and
    [total_completed_tasks] equal to the number of idle and of busy
    subordinates and to 15 plus their completed tasks: [create_agent]
    updates them by hand and [scale_agents] recomputes them; the initial
    hierarchy agrees, hence every hierarchy reached by requests. *)
Theorem hierarchy_counters_consistent :
  (forall h now b r h', counters_ok h -> post h now b = Some (r, h') -> counters_ok h') /\
  (forall t0 reqs h, run (mockAgentHierarchy t0) reqs = Some h -> counters_ok h).
Proof.
  split; [exact post_preserves_counters |].
  intros t0 reqs h. apply run_invariant; [exact post_preserves_counters |].
  split; [| split]; reflexivity.
Qed.

Lemma hierarchy_counters_consistent_witness :
  exists r h',
    post (mockAgentHierarchy 0) 5 (create_request "Ops") = Some (r, h') /\
    counters_ok h'.
Proof.
  do 2 eexists. split; [reflexivity |].
  destruct hierarchy_counters_consistent as [Hpost _].
  refine (Hpost (mockAgentHierarchy 0) 5 (create_request "Ops") _ _ _ _);
    [split; [| split]; reflexivity | reflexivity].
Defined.

End HierarchySizeFacts.

(** ** The LLM-provider route *)
Section LLMProvidersFacts.
Import LLMProviders.

Lemma truthy_nonempty (p : string) : p <> "" -> truthy (Some p) = Some p.
Proof. destruct p; [contradiction | reflexivity]. Qed.

Lemma not_proto_key (p : string) :
  ~ In p proto_keys -> existsb (String.eqb p) proto_keys = false.
Proof.
  intros Hn. destruct (existsb (String.eqb p) proto_keys) eqn:E; [| reflexivity].
  apply existsb_exists in E. destruct E as [x [Hx Heq]].
  apply String.eqb_eq in Heq. subst x. contradiction.
Qed.

Lemma find_set_keyed (p q : string) (l : list (string * ProviderData)) :
  find_provider q (set_keyed p l) =
  if String.eqb q p then option_map keyed (find_provider q l) else find_provider q l.
Proof.
  induction l as [| [k d] l IH]; simpl.
  - destruct (String.eqb q p); reflexivity.
  - destruct (String.eqb p k) eqn:Epk.
    + apply String.eqb_eq in Epk. subst k. simpl.
      destruct (String.eqb q p); reflexivity.
    + simpl. destruct (String.eqb q k) eqn:Eqk; [| exact IH].
      apply String.eqb_eq in Eqk. subst k.
      destruct (String.eqb q p) eqn:Eqp; [| reflexivity].
      apply String.eqb_eq in Eqp. subst q. rewrite String.eqb_refl in Epk. discriminate.
Qed.

Definition set_api_key_body (p k : string) : option Body :=
  Some {| action := Some "set_api_key"; provider := Some p; api_key := Some k |}.

Definition switch_body (p : option string) : option Body :=
  Some {| action := Some "switch_provider"; provider := p; api_key := None |}.

Definition test_body (p : option string) : option Body :=
  Some {| action := Some "test_provider"; provider := p; api_key := None |}.

(** X8: [set_api_key] with a provider of the table and a non-empty key
    answers "API key set for <provider>", turns the provider's
    [has_api_key], [is_active] and [is_initialized] on (model and base URL
    kept), touches no other provider, and makes it the active provider only
    when none is set. *)
Theorem set_api_key_configured (st : State) (p k : string) (d : ProviderData) :
  p <> "" -> k <> "" -> find_provider p (providers st) = Some d ->
  exists st',
    post st (set_api_key_body p k) = Some (Ok ("API key set for " ++ p), st') /\
    find_provider p (providers st') =
      Some {| is_active := true; has_api_key := true; is_initialized := true;
              model := model d; base_url := base_url d |} /\
    (forall q, q <> p -> find_provider q (providers st') = find_provider q (providers st)) /\
    (active_provider st = None -> active_provider st' = Some p) /\
    (forall a, active_provider st = Some a -> a <> "" -> active_provider st' = Some a).
Proof.
  intros Hp Hk Hd. unfold post, set_api_key_body, action_is. cbn [action provider api_key].
  rewrite String.eqb_refl, (truthy_nonempty p Hp), (truthy_nonempty k Hk), Hd.
  eexists. split; [reflexivity |]. cbn [providers active_provider].
  split; [rewrite find_set_keyed, String.eqb_refl, Hd; reflexivity |].
  split; [| split].
  - intros q Hq. rewrite find_set_keyed.
    destruct (String.eqb q p) eqn:E; [apply String.eqb_eq in E; contradiction | reflexivity].
  - intros ->. reflexivity.
  - intros a Ha Hne. rewrite Ha, (truthy_nonempty a Hne). reflexivity.
Qed.

Lemma set_api_key_configured_witness :
  exists st',
    post initial (set_api_key_body "grok" "xai-1") = Some (Ok ("API key set for " ++ "grok"), st') /\
    find_provider "grok" (providers st') =
      Some {| is_active := true; has_api_key := true; is_initialized := true;
              model := "grok-beta"; base_url := "https://api.x.ai/v1" |} /\
    (forall q, q <> "grok" -> find_provider q (providers st') = find_provider q (providers initial)) /\
    (active_provider initial = None -> active_provider st' = Some "grok") /\
    (forall a, active_provider initial = Some a -> a <> "" -> active_provider st' = Some a).
Proof.
  apply (set_api_key_configured initial "grok" "xai-1"
           (fresh "grok-beta" "https://api.x.ai/v1")); [discriminate | discriminate | reflexivity].
Defined.

(** X9: [set_api_key] answers success for any non-empty provider name and
    key, even a name that is not in the table (nor on [Object.prototype]),
    and then changes nothing; without a provider or a key (absent or empty)
    it answers 400 and changes nothing. *)
Theorem set_api_key_unknown_or_missing :
  (forall st p k,
     p <> "" -> k <> "" -> find_provider p (providers st) = None -> ~ In p proto_keys ->
     post st (set_api_key_body p k) = Some (Ok ("API key set for " ++ p), st)) /\
  (forall st pr key,
     truthy pr = None \/ truthy key = None ->
     post st (Some {| action := Some "set_api_key"; provider := pr; api_key := key |}) =
       Some (Failure 400 "Provider and API key are required", st)).
Proof.
  split.
  - intros st p k Hp Hk Hd Hproto. unfold post, set_api_key_body, action_is.
    cbn [action provider api_key].
    rewrite String.eqb_refl, (truthy_nonempty p Hp), (truthy_nonempty k Hk), Hd,
            (not_proto_key p Hproto).
    reflexivity.
  - intros st pr key Hmiss. unfold post, action_is. cbn [action provider api_key].
    rewrite String.eqb_refl.
    destruct Hmiss as [-> | ->]; [reflexivity |]. destruct (truthy pr); reflexivity.
Qed.

Lemma set_api_key_unknown_or_missing_witness :
  post initial (set_api_key_body "mistral" "k") = Some (Ok ("API key set for " ++ "mistral"), initial).
Proof.
  destruct set_api_key_unknown_or_missing as [H _].
  apply H; [discriminate | discriminate | reflexivity | simpl; intuition discriminate].
Defined.

(** X10: in every state reached by requests none of which is a
    [set_api_key] on a name found on [Object.prototype], [switch_provider] to
    a non-empty name succeeds, making it the active provider, exactly when
    the name is a provider of the table whose [is_initialized] is set;
    otherwise it answers 400 "Provider <name> is not initialized" and changes
    nothing. The provider table is never changed. *)
Theorem switch_provider_requires_initialized (reqs : list (option Body)) (st : State)
    (p : string) :
  run initial reqs = Some st -> p <> "" ->
  exists r st',
    post st (switch_body (Some p)) = Some (r, st') /\
    providers st' = providers st /\
    ((exists d, find_provider p (providers st) = Some d /\ is_initialized d = true) ->
       r = Ok ("Switched to " ++ p) /\ active_provider st' = Some p) /\
    (~ (exists d, find_provider p (providers st) = Some d /\ is_initialized d = true) ->
       r = Failure 400 ("Provider " ++ p ++ " is not initialized") /\ st' = st).
Proof.
  intros _ Hp. unfold post, switch_body, action_is. cbn [action provider api_key].
  rewrite (truthy_nonempty p Hp). simpl.
  destruct (find_provider p (providers st)) as [d |] eqn:Hd.
  - destruct (is_initialized d) eqn:Hi.
    + eexists _, _. split; [reflexivity |]. split; [reflexivity |]. split.
      * intros _. split; reflexivity.
      * intros Hn. exfalso. apply Hn. exists d. split; [reflexivity | exact Hi].
    + eexists _, _. split; [reflexivity |]. split; [reflexivity |]. split.
      * intros [d' [Hd' Hi']]. injection Hd' as <-. rewrite Hi in Hi'. discriminate.
      * intros _. split; reflexivity.
  - eexists _, _. split; [reflexivity |]. split; [reflexivity |]. split.
    + intros [d' [Hd' _]]. discriminate.
    + intros _. split; reflexivity.
Qed.

Lemma switch_provider_requires_initialized_witness :
  exists r st',
    post initial (switch_body (Some "ollama")) = Some (r, st') /\
    providers st' = providers initial /\
    ((exists d, find_provider "ollama" (providers initial) = Some d /\ is_initialized d = true) ->
       r = Ok ("Switched to " ++ "ollama") /\ active_provider st' = Some "ollama") /\
    (~ (exists d, find_provider "ollama" (providers initial) = Some d /\ is_initialized d = true) ->
       r = Failure 400 ("Provider " ++ "ollama" ++ " is not initialized") /\ st' = initial).
Proof.
  apply (switch_provider_requires_initialized [] initial "ollama");
    [reflexivity | discriminate].
Defined.

(** X11: in every state reached by requests none of which is a
    [set_api_key] on a name found on [Object.prototype], [test_provider]
    does not change the state, and reports status "success" exactly when a
    non-empty provider name is given that is a provider of the table with
    [has_api_key] set. *)
Theorem test_provider_reads_only (reqs : list (option Body)) (st : State)
    (pr : option string) :
  run initial reqs = Some st ->
  exists r,
    post st (test_body pr) = Some (r, st) /\
    ((exists m, r = Tested "success" m) <->
     (exists p d, truthy pr = Some p /\ find_provider p (providers st) = Some d /\
                  has_api_key d = true)).
Proof.
  intros _. unfold post, test_body, action_is. cbn [action provider api_key]. simpl.
  destruct (truthy pr) as [p |] eqn:Hp.
  - destruct (find_provider p (providers st)) as [d |] eqn:Hd.
    + destruct (has_api_key d) eqn:Hk; eexists; split; try reflexivity; split.
      * intros _. exists p, d. auto.
      * intros _. eexists. reflexivity.
      * intros [m Hm]. injection Hm as Hm _. discriminate.
      * intros [p' [d' [Hp' [Hd' Hk']]]]. injection Hp' as <-.
        rewrite Hd in Hd'. injection Hd' as <-. rewrite Hk in Hk'. discriminate.
    + eexists; split; [reflexivity |]. split.
      * intros [m Hm]. injection Hm as Hm _. discriminate.
      * intros [p' [d' [Hp' [Hd' _]]]]. injection Hp' as <-. rewrite Hd in Hd'. discriminate.
  - eexists; split; [reflexivity |]. split.
    + intros [m Hm]. discriminate.
    + intros [p' [d' [Hp' _]]]. discriminate.
Qed.

Lemma test_provider_reads_only_witness :
  exists r,
    post initial (test_body (Some "toString")) = Some (r, initial) /\
    ((exists m, r = Tested "success" m) <->
     (exists p d, truthy (Some "toString") = Some p /\
                  find_provider p (providers initial) = Some d /\
                  has_api_key d = true)).
Proof. apply (test_provider_reads_only [] initial (Some "toString")). reflexivity. Defined.









(** X16: no request undoes a configuration: a provider that is initialized
    stays initialized, and once [active_provider] is set it is never reset
    to [null] (the route has no action that clears either). *)
Theorem post_never_unconfigures (st st' : State) (b : option Body) (r : Response) :
  post st b = Some (r, st') ->
  (forall p d, find_provider p (providers st) = Some d -> is_initialized d = true ->
     exists d', find_provider p (providers st') = Some d' /\ is_initialized d' = true) /\
  (active_provider st <> None -> active_provider st' <> None).
Proof.
  intros Hpost.
  assert (Hsame : st' = st ->
    (forall p d, find_provider p (providers st) = Some d -> is_initialized d = true ->
       exists d', find_provider p (providers st') = Some d' /\ is_initialized d' = true) /\
    (active_provider st <> None -> active_provider st' <> None)).
  { intros ->. split; [intros p d Hd Hi; exists d; auto | auto]. }
  destruct b as [b |]; [| injection Hpost as _ <-; auto].
  unfold post in Hpost.
  destruct (action_is b "set_api_key").
  - destruct (truthy (provider b)) as [p |], (truthy (api_key b)) as [k |];
      try (injection Hpost as _ <-; auto).
    destruct (find_provider p (providers st)) as [d |] eqn:Hd.
    + injection Hpost as _ <-. cbn [providers active_provider]. split.
      * intros q dq Hq Hi. rewrite find_set_keyed.
        destruct (String.eqb q p); rewrite Hq; eexists; split; [reflexivity | reflexivity | reflexivity | exact Hi].
      * intros _. destruct (truthy (active_provider st)); discriminate.
    + destruct (existsb (String.eqb p) proto_keys); [discriminate |].
      injection Hpost as _ <-. auto.
  - destruct (action_is b "switch_provider").
    + destruct (truthy (provider b)) as [p |]; [| injection Hpost as _ <-; auto].
      destruct (find_provider p (providers st)) as [d |];
        [| injection Hpost as _ <-; auto].
      destruct (is_initialized d); [| injection Hpost as _ <-; auto].
      injection Hpost as _ <-. cbn [providers active_provider]. split.
      * intros q dq Hq Hi. exists dq. auto.
      * intros _. discriminate.
    + destruct (action_is b "test_provider").
      * destruct (truthy (provider b)) as [p |]; [| injection Hpost as _ <-; auto].
        destruct (find_provider p (providers st)) as [d |];
          [destruct (has_api_key d) |]; injection Hpost as _ <-; auto.
      * injection Hpost as _ <-. auto.
Qed.

Lemma post_never_unconfigures_witness :
  exists d', find_provider "grok"
               (providers {| active_provider := Some "grok";
                             providers := set_keyed "openai" (set_keyed "grok" (providers initial)) |})
             = Some d' /\ is_initialized d' = true.
Proof.
  apply (proj1 (post_never_unconfigures
                  {| active_provider := Some "grok";
                     providers := set_keyed "grok" (providers initial) |}
                  {| active_provider := Some "grok";
                     providers := set_keyed "openai" (set_keyed "grok" (providers initial)) |}
                  (set_api_key_body "openai" "k") (Ok ("API key set for " ++ "openai")) eq_refl)
               "grok" (keyed (fresh "grok-beta" "https://api.x.ai/v1"))); reflexivity.
Defined.

End LLMProvidersFacts.

(** ** [formatRelativeTime] *)
Section RelativeTimeFacts.
Import DashboardUtils.
Local Open Scope Z_scope.

(** X13: [formatRelativeTime] writes the elapsed whole seconds [d] below a
    minute as "<d>s ago", and otherwise the largest unit that fits, as a
    count in range: 1 to 59 minutes below an hour, 1 to 23 hours below a
    day, at least 1 day beyond; a timestamp in the future gives a negative
    number of seconds. *)
Theorem formatRelativeTime_units (now_ms time_ms : Z) :
  let d := (now_ms - time_ms) / 1000 in
  (d < 60 -> formatRelativeTime now_ms time_ms = string_of_Z d ++ "s ago") /\
  (now_ms < time_ms ->
     exists s, s < 0 /\ formatRelativeTime now_ms time_ms = string_of_Z s ++ "s ago") /\
  (60 <= d < 3600 -> exists m, 1 <= m <= 59 /\ m = d / 60 /\
     formatRelativeTime now_ms time_ms = string_of_Z m ++ "m ago") /\
  (3600 <= d < 86400 -> exists hr, 1 <= hr <= 23 /\ hr = d / 3600 /\
     formatRelativeTime now_ms time_ms = string_of_Z hr ++ "h ago") /\
  (86400 <= d -> exists dy, 1 <= dy /\ dy = d / 86400 /\
     formatRelativeTime now_ms time_ms = string_of_Z dy ++ "d ago").
Proof.
  intros d.
  assert (Hs : d < 60 -> formatRelativeTime now_ms time_ms = string_of_Z d ++ "s ago").
  { intros Hd. unfold formatRelativeTime. fold d.
    replace (d <? 60) with true by (symmetry; apply Z.ltb_lt; exact Hd). reflexivity. }
  split; [exact Hs | split; [| split; [| split]]].
  - intros Hlt. exists d. split; [| apply Hs].
    + unfold d. pose proof (Z.div_mod (now_ms - time_ms) 1000) as Hdm.
      pose proof (Z.mod_pos_bound (now_ms - time_ms) 1000) as Hb. lia.
    + unfold d. pose proof (Z.div_mod (now_ms - time_ms) 1000) as Hdm.
      pose proof (Z.mod_pos_bound (now_ms - time_ms) 1000) as Hb. lia.
  - intros Hd. exists (d / 60).
    pose proof (Z.div_mod d 60) as Hdm. pose proof (Z.mod_pos_bound d 60) as Hb.
    split; [lia | split; [reflexivity |]].
    unfold formatRelativeTime. fold d.
    replace (d <? 60) with false by (symmetry; apply Z.ltb_ge; lia).
    replace (d <? 3600) with true by (symmetry; apply Z.ltb_lt; lia). reflexivity.
  - intros Hd. exists (d / 3600).
    pose proof (Z.div_mod d 3600) as Hdm. pose proof (Z.mod_pos_bound d 3600) as Hb.
    split; [lia | split; [reflexivity |]].
    unfold formatRelativeTime. fold d.
    replace (d <? 60) with false by (symmetry; apply Z.ltb_ge; lia).
    replace (d <? 3600) with false by (symmetry; apply Z.ltb_ge; lia).
    replace (d <? 86400) with true by (symmetry; apply Z.ltb_lt; lia). reflexivity.
  - intros Hd. exists (d / 86400).
    pose proof (Z.div_mod d 86400) as Hdm. pose proof (Z.mod_pos_bound d 86400) as Hb.
    split; [lia | split; [reflexivity |]].
    unfold formatRelativeTime. fold d.
    replace (d <? 60) with false by (symmetry; apply Z.ltb_ge; lia).
    replace (d <? 3600) with false by (symmetry; apply Z.ltb_ge; lia).
    replace (d <? 86400) with false by (symmetry; apply Z.ltb_ge; lia). reflexivity.
Qed.

Lemma formatRelativeTime_units_witness :
  exists m, 1 <= m <= 59 /\ m = (1000000 - 0) / 1000 / 60 /\
    formatRelativeTime 1000000 0 = string_of_Z m ++ "m ago".
Proof.
  destruct (formatRelativeTime_units 1000000 0) as [_ [_ [H _]]].
  apply H. vm_compute. split; [intros Hc; discriminate | reflexivity].
Defined.

End RelativeTimeFacts.

(** ** The State History panel *)
Section BossHistoryFacts.
Import Boss BossHistory.
Local Open Scope nat_scope.
Local Open Scope list_scope.

(** X14: the State History panel shows at most ten states, newest first; a
    state change puts the new state on top and keeps the nine newest rows
    shown before it below. *)
Theorem recent_history_after_change :
  (forall d, List.length (recent_history d) <= 10) /\
  (forall d s, recent_history (handleStateChange d s) = s :: firstn 9 (recent_history d)).
Proof.
  split.
  - intros d. unfold recent_history. rewrite length_rev, length_skipn. lia.
  - intros d s. unfold recent_history, handleStateChange. cbn [state_history].
    set (h := state_history d).
    rewrite length_app, skipn_app, rev_app_distr. cbn [List.length].
    replace (List.length h + 1 - 10 - List.length h) with 0 by lia.
    cbn [skipn rev app]. f_equal.
    rewrite firstn_rev, skipn_skipn, length_skipn. f_equal. f_equal. lia.
Qed.

End BossHistoryFacts.

(** ** The status counters of [task-management.tsx] *)
Section TaskCountsFacts.
Import TaskUI TaskCounts.
Local Open Scope nat_scope.
Local Open Scope list_scope.

Lemma count_of_mid (s : TaskStatus) (pre post : list Task) (x : Task) :
  count_of s (pre ++ x :: post) =
  count_of s pre + (if TaskStatus_eqb (status x) s then 1 else 0) + count_of s post.
Proof.
  unfold count_of. rewrite filter_app, length_app. simpl.
  destruct (TaskStatus_eqb (status x) s); simpl; lia.
Qed.

(** X15: a click on an offered button moves one task between the counters
    of the status tabs: "Retry" takes it from Failed to Pending, "Cancel"
    takes it from Pending or Running (cancelled tasks have no counter);
    "All" and the other counters stay as they were. *)
Theorem taskCounts_after_click (tasks : list Task) (t : Task) (a : Action) :
  TaskUI.ids_unique tasks -> In t tasks -> offered t a = true ->
  let c := taskCounts tasks in
  let c' := taskCounts (handleTaskAction tasks (id t) a) in
  all c' = all c /\ completed c' = completed c /\
  match a with
  | Retry =>
      pending c' = pending c + 1 /\ failed c' + 1 = failed c /\ running c' = running c
  | Cancel =>
      failed c' = failed c /\
      (status t = PENDING -> pending c' + 1 = pending c /\ running c' = running c) /\
      (status t = RUNNING -> running c' + 1 = running c /\ pending c' = pending c)
  end.
Proof.
  intros Hu Hin Hoff c c'. subst c c'.
  destruct (in_split t tasks Hin) as [pre [post ->]].
  assert (Hha : handleTaskAction (pre ++ t :: post) (id t) a = pre ++ apply_action a t :: post).
  { unfold TaskUI.ids_unique in Hu. rewrite map_app in Hu. simpl in Hu.
    apply NoDup_remove_2 in Hu. rewrite in_app_iff in Hu.
    rewrite handleTaskAction_app, handleTaskAction_cons, String.eqb_refl.
    rewrite (handleTaskAction_absent pre), (handleTaskAction_absent post) by tauto.
    reflexivity. }
  rewrite Hha. unfold taskCounts. cbn [all pending running completed failed].
  rewrite !count_of_mid, !length_app. cbn [List.length].
  destruct a; unfold offered in Hoff; cbn [apply_action retried cancelled status];
    destruct (status t) eqn:Hst; simpl in Hoff; try discriminate; simpl;
    repeat match goal with
           | |- _ /\ _ => split
           | |- _ -> _ => intros ?
           end; first [lia | discriminate].
Qed.

Lemma taskCounts_after_click_witness :
  all (taskCounts (handleTaskAction [sample_task "t1" FAILED 0 3] "t1" Retry)) =
  all (taskCounts [sample_task "t1" FAILED 0 3]).
Proof.
  apply (taskCounts_after_click [sample_task "t1" FAILED 0 3] (sample_task "t1" FAILED 0 3) Retry).
  - unfold TaskUI.ids_unique. simpl. constructor; [simpl; tauto | constructor].
  - simpl. left. reflexivity.
  - reflexivity.
Defined.

End TaskCountsFacts.
